(** * Token lifecycle of [token_manager.py]

    A shallow embedding of the [TokenManager] class: the SQLite table it
    keeps its single token row in, the refresh-grant exchange it posts to
    the OAuth endpoint, and the policy of [get_valid_access_token] that
    decides between the cached token, a refresh and the bootstrap.

    Conventions of the embedding.
    - Python text is a byte string ([string]); [str.encode] and
      [bytes.decode] are then the identity.
    - A Python exception is its class name and its message.
    - A Python [float] is an IEEE 754 double, [spec_float] with 53 bits
      of precision; [time.time() + 300] is the rounded sum [SFadd], and
      the comparison of an [int] with a [float] is exact, as in Python.
      [time.time()] returns a finite double, given by its mantissa and
      exponent.
    - A SQLite INTEGER is a signed 64-bit integer: binding a Python [int]
      outside that range raises [OverflowError].
    - Stored values have the types the table declares for its columns
      (TEXT, TEXT, INTEGER) and the members of a token response the types
      of the wire protocol.
    - Everything outside the process (environment variables, the file
      system, the wall clock, the OAuth endpoint) lives in a [world] that
      every method threads through; a method is a function from the world
      to an outcome and the world it leaves behind. *)

From Stdlib Require Import ZArith QArith String Ascii List Lia SpecFloat.
From stdpp Require Import gmap strings.
Import ListNotations.

Local Open Scope string_scope.

(** ** Python values and exceptions *)

Inductive exn : Type :=
  | PyExc (cls : string) (msg : string).

(** [raise Exception(msg)] *)
Definition Exception (msg : string) : exn := PyExc "Exception" msg.
(** [d[key]] on a dict without that key; the message is [repr(key)]. *)
Definition KeyError (key : string) : exn := PyExc "KeyError" ("'" ++ key ++ "'").
(** what sqlite3 raises for a statement on a table that is not there, and
    for a path it cannot open *)
Definition OperationalError (msg : string) : exn := PyExc "sqlite3.OperationalError" msg.

Inductive result (A : Type) : Type :=
  | Return (a : A)
  | Raise (e : exn).
Arguments Return {A} a.
Arguments Raise {A} e.

(** [str(x)] inside an f-string, for a value that is a string or [None]. *)
Definition py_str (x : option string) : string := default "None" x.

(** ** Python floats *)

Abbreviation float := spec_float.

(** [x + y] on doubles: the exact sum rounded to the nearest double, ties
    to even. *)
Definition float_add (x y : float) : float := SFadd 53 1024 x y.

(** The double an [int] operand of a float operation is converted to (for
    an [int] within the range of the doubles). *)
Definition float_of_int (n : Z) : float := binary_normalize 53 1024 n 0 false.

(** A finite double, [mantissa * 2 ^ exponent]: what [time.time()]
    returns. *)
Record timestamp : Type := {
  mantissa : Z;
  exponent : Z
}.

Definition float_of_timestamp (t : timestamp) : float :=
  match mantissa t with
  | Z0 => S754_zero false
  | Zpos m => S754_finite false m (exponent t)
  | Zneg m => S754_finite true m (exponent t)
  end.

(** [int(x)] for a finite float: truncation towards zero. *)
Definition py_int (t : timestamp) : Z :=
  if (0 <=? exponent t)%Z then (mantissa t * 2 ^ exponent t)%Z
  else Z.quot (mantissa t) (2 ^ (- exponent t)).

(** [n > x] for an int [n] and a float [x]: the exact comparison of the
    two numbers; false against a NaN. *)
Definition py_gt (n : Z) (x : float) : bool :=
  match x with
  | S754_nan => false
  | S754_infinity s => s
  | S754_zero _ => (0 <? n)%Z
  | S754_finite s m e =>
      let v := cond_Zopp s (Zpos m) in
      if (0 <=? e)%Z then (v * 2 ^ e <? n)%Z
      else (v <? n * 2 ^ (- e))%Z
  end.

(** ** [base64.b64encode] *)

Definition b64_alphabet : string :=
  "ABCDEFGHIJKLMNOPQRSTUVWXYZabcdefghijklmnopqrstuvwxyz0123456789+/".

Definition b64_char (n : N) : ascii :=
  default "="%char (String.get (N.to_nat n) b64_alphabet).

Fixpoint b64encode (s : string) : string :=
  match s with
  | EmptyString => EmptyString
  | String a EmptyString =>
      let x := N_of_ascii a in
      String (b64_char (N.shiftr x 2))
        (String (b64_char (N.shiftl (N.land x 3) 4)) "==")
  | String a (String b EmptyString) =>
      let x := N_of_ascii a in
      let y := N_of_ascii b in
      String (b64_char (N.shiftr x 2))
        (String (b64_char (N.lor (N.shiftl (N.land x 3) 4) (N.shiftr y 4)))
           (String (b64_char (N.shiftl (N.land y 15) 2)) "="))
  | String a (String b (String c rest)) =>
      let x := N_of_ascii a in
      let y := N_of_ascii b in
      let z := N_of_ascii c in
      String (b64_char (N.shiftr x 2))
        (String (b64_char (N.lor (N.shiftl (N.land x 3) 4) (N.shiftr y 4)))
           (String (b64_char (N.lor (N.shiftl (N.land y 15) 2) (N.shiftr z 6)))
              (String (b64_char (N.land z 63)) (b64encode rest))))
  end.

(** ** The SQLite side

    The table [tokens] of [_init_db]:
    [id INTEGER PRIMARY KEY, refresh_token TEXT, access_token TEXT,
     expires_at INTEGER].  Rows are kept in rowid order, which is the
    order a scan without [ORDER BY] visits them in. *)

Record row : Type := {
  row_id : Z;
  row_refresh_token : string;
  row_access_token : string;
  row_expires_at : Z
}.

(** A database: its tables by name (only [tokens] is ever made). *)
Abbreviation database := (gmap string (list row)).

(** What a path of the file system holds, as far as SQLite is concerned:
    a database file, a file that is no database, or something that cannot
    be opened as a file at all (a directory, a file without permission, a
    name in a directory that is not there). *)
Inductive file : Type :=
  | Database (db : database)
  | NotADatabase
  | Unopenable.

(** The names SQLite does not take for files: [:memory:] and the empty
    name give every connection a fresh database of its own, which is gone
    when the connection is. *)
Definition private_name (path : string) : bool :=
  match path with
  | EmptyString => true
  | _ => String.eqb path ":memory:"
  end.

(** An open connection: the file behind it ([None] for a private
    database) and its view of the database, which holds the statements
    executed and not yet committed ([None] when the file is no
    database). *)
Record connection : Type := {
  conn_path : option string;
  conn_db : option database
}.

Definition no_such_table : exn := OperationalError "no such table: tokens".
Definition unable_to_open : exn := OperationalError "unable to open database file".
Definition not_a_database : exn := PyExc "sqlite3.DatabaseError" "file is not a database".
Definition int_too_large : exn :=
  PyExc "OverflowError" "Python int too large to convert to SQLite INTEGER".

(** The range of a SQLite INTEGER. *)
Definition int64 (n : Z) : bool := ((- 2 ^ 63 <=? n) && (n <? 2 ^ 63))%Z.

Definition with_db (conn : connection) (db : database) : connection :=
  {| conn_path := conn_path conn; conn_db := Some db |}.

(** [CREATE TABLE IF NOT EXISTS tokens (...)] *)
Definition sql_create_table_if_not_exists (conn : connection) : result connection :=
  match conn_db conn with
  | None => Raise not_a_database
  | Some db =>
      match db !! "tokens" with
      | Some _ => Return conn
      | None => Return (with_db conn (<["tokens" := []]> db))
      end
  end.

(** [DELETE FROM tokens] *)
Definition sql_delete (conn : connection) : result connection :=
  match conn_db conn with
  | None => Raise not_a_database
  | Some db =>
      match db !! "tokens" with
      | Some _ => Return (with_db conn (<["tokens" := []]> db))
      | None => Raise no_such_table
      end
  end.

(** The rowid given to a row inserted without one: one more than the
    largest in the table, 1 in an empty table. *)
Definition next_rowid (rows : list row) : Z :=
  match rows with
  | [] => 1
  | r :: rest => 1 + fold_right Z.max (row_id r) (map row_id rest)
  end%Z.

(** [INSERT INTO tokens (refresh_token, access_token, expires_at)
     VALUES (?, ?, ?)]: the statement is prepared, which needs the table,
    then the parameters are bound, which needs the integer to fit. *)
Definition sql_insert (conn : connection)
    (refresh_token access_token : string) (expires_at : Z) : result connection :=
  match conn_db conn with
  | None => Raise not_a_database
  | Some db =>
      match db !! "tokens" with
      | Some rows =>
          if int64 expires_at then
            let r := {| row_id := next_rowid rows;
                        row_refresh_token := refresh_token;
                        row_access_token := access_token;
                        row_expires_at := expires_at |} in
            Return (with_db conn (<["tokens" := (rows ++ [r])%list]> db))
          else Raise int_too_large
      | None => Raise no_such_table
      end
  end.

(** [SELECT access_token, refresh_token, expires_at FROM tokens LIMIT 1],
    then [fetchone()]: the selected columns of the first row, or [None]. *)
Definition sql_select_fetchone (conn : connection)
    : result (option (string * string * Z)) :=
  match conn_db conn with
  | None => Raise not_a_database
  | Some db =>
      match db !! "tokens" with
      | Some [] => Return None
      | Some (r :: _) =>
          Return (Some (row_access_token r, row_refresh_token r, row_expires_at r))
      | None => Raise no_such_table
      end
  end.

(** ** The OAuth side *)

(** What [requests.post] is called with. *)
Record Request : Type := {
  req_url : string;
  req_headers : list (string * string);
  req_data : list (string * string)
}.

(** The JSON object of a token response, as far as the code reads it: the
    three members it subscripts, each of the type the wire protocol gives
    it, each possibly missing. *)
Record token_json : Type := {
  json_access_token : option string;
  json_refresh_token : option string;
  json_expires_in : option Z
}.

(** A [requests.Response]: [json] is what [response.json()] does, which
    raises when the body is not such a JSON document. *)
Record Response : Type := {
  status_code : Z;
  text : string;
  json : result token_json
}.

(** ** The world outside the process *)

Record world : Type := {
  environ : gmap string string;
  files : gmap string file;
  clock : nat -> timestamp;
  clock_reads : nat;
  endpoint : gmap string string -> list Request -> Request -> result Response;
  posted : list Request
}.

(** [environ]: the environment variables; [files]: the file system, by
    path; [clock n]: the value of the [n]-th call of [time.time()] and
    [clock_reads] the number of calls made; [endpoint]: what a POST
    yields (a response, or the exception of a transport failure) given
    the environment, from which the HTTP library takes its proxy and
    certificate settings, and the requests posted before; [posted]: the
    requests posted so far, oldest first. *)

Definition with_files (fs : gmap string file) (w : world) : world :=
  {| environ := environ w; files := fs; clock := clock w;
     clock_reads := clock_reads w; endpoint := endpoint w; posted := posted w |}.

Definition with_clock_reads (n : nat) (w : world) : world :=
  {| environ := environ w; files := files w; clock := clock w;
     clock_reads := n; endpoint := endpoint w; posted := posted w |}.

Definition with_posted (rs : list Request) (w : world) : world :=
  {| environ := environ w; files := files w; clock := clock w;
     clock_reads := clock_reads w; endpoint := endpoint w; posted := rs |}.

(** ** Methods: state and exceptions *)

Definition M (A : Type) : Type := world -> result A * world.

Definition ret {A} (a : A) : M A := fun w => (Return a, w).
Definition raise {A} (e : exn) : M A := fun w => (Raise e, w).
Definition bind {A B} (m : M A) (k : A -> M B) : M B :=
  fun w =>
    match m w with
    | (Return a, w') => k a w'
    | (Raise e, w') => (Raise e, w')
    end.
Definition lift {A} (r : result A) : M A := fun w => (r, w).

Declare Scope py_scope.
Delimit Scope py_scope with py.
Notation "x <- m ;; k" := (bind m (fun x => k))
  (at level 100, m at next level, right associativity) : py_scope.
Notation "m ;;; k" := (bind m (fun _ => k))
  (at level 100, right associativity) : py_scope.
Local Open Scope py_scope.

(** [os.getenv(name)] *)
Definition os_getenv (name : string) : M (option string) :=
  fun w => (Return (environ w !! name), w).

(** [time.time()] *)
Definition time_time : M timestamp :=
  fun w => (Return (clock w (clock_reads w)),
            with_clock_reads (S (clock_reads w)) w).

(** [requests.post(url, headers=..., data=...)] *)
Definition requests_post (url : string) (headers data : list (string * string))
    : M Response :=
  fun w =>
    let req := {| req_url := url; req_headers := headers; req_data := data |} in
    (endpoint w (environ w) (posted w) req,
     with_posted (posted w ++ [req])%list w).

(** [sqlite3.connect(path)]: a private database for the names SQLite
    keeps for that; otherwise the file at the path, made empty when there
    is none; [OperationalError] when the path cannot be opened.  A file
    that is no database is found out by the first statement. *)
Definition sqlite3_connect (path : string) : M connection :=
  fun w =>
    if private_name path then
      (Return {| conn_path := None; conn_db := Some ∅ |}, w)
    else
      match files w !! path with
      | Some (Database db) =>
          (Return {| conn_path := Some path; conn_db := Some db |}, w)
      | Some NotADatabase =>
          (Return {| conn_path := Some path; conn_db := None |}, w)
      | Some Unopenable => (Raise unable_to_open, w)
      | None =>
          (Return {| conn_path := Some path; conn_db := Some ∅ |},
           with_files (<[path := Database ∅]> (files w)) w)
      end.

(** [conn.commit()]: the connection's view becomes the file's content. *)
Definition commit (conn : connection) : M unit :=
  fun w =>
    match conn_path conn, conn_db conn with
    | Some path, Some db =>
        (Return tt, with_files (<[path := Database db]> (files w)) w)
    | _, _ => (Return tt, w)
    end.

(** [conn.close()]: what was not committed is dropped with the view. *)
Definition close (conn : connection) : M unit := ret tt.

(** ** The class [TokenManager] *)

Record TokenManager : Type := {
  db_path : string;
  client_id : option string;
  client_secret : option string
}.

(** The dict [get_tokens] returns. *)
Record tokens : Type := {
  access_token : string;
  refresh_token : string;
  expires_at : Z
}.

Definition _init_db (self : TokenManager) : M unit :=
  conn <- sqlite3_connect (db_path self) ;;
  conn <- lift (sql_create_table_if_not_exists conn) ;;
  commit conn ;;;
  close conn.

Definition __init__ (path : string) : M TokenManager :=
  id <- os_getenv "BLUEBEAM_CLIENT_ID" ;;
  secret <- os_getenv "BLUEBEAM_CLIENT_SECRET" ;;
  let self := {| db_path := path; client_id := id; client_secret := secret |} in
  _init_db self ;;;
  ret self.

Definition save_tokens (self : TokenManager)
    (access_token refresh_token : string) (expires_in : Z) : M unit :=
  now <- time_time ;;
  let expires_at := (py_int now + expires_in)%Z in
  conn <- sqlite3_connect (db_path self) ;;
  conn <- lift (sql_delete conn) ;;
  conn <- lift (sql_insert conn refresh_token access_token expires_at) ;;
  commit conn ;;;
  close conn.

Definition get_tokens (self : TokenManager) : M (option tokens) :=
  conn <- sqlite3_connect (db_path self) ;;
  result <- lift (sql_select_fetchone conn) ;;
  close conn ;;;
  match result with
  | Some (a, r, e) =>
      ret (Some {| access_token := a; refresh_token := r; expires_at := e |})
  | None => ret None
  end.

Definition token_url : string := "https://api.bluebeam.com/oauth2/token".

Definition refresh_access_token (self : TokenManager) (refresh_token : string)
    : M token_json :=
  let credentials := py_str (client_id self) ++ ":" ++ py_str (client_secret self) in
  let encoded_credentials := b64encode credentials in
  response <- requests_post token_url
                [("Content-Type", "application/x-www-form-urlencoded");
                 ("Authorization", "Basic " ++ encoded_credentials)]
                [("grant_type", "refresh_token");
                 ("refresh_token", refresh_token)] ;;
  if (status_code response =? 200)%Z then lift (json response)
  else raise (Exception ("Failed to refresh token: " ++ text response)).

(** [d[key]] for a member of the JSON object. *)
Definition getitem {A} (key : string) (member : option A) : M A :=
  match member with
  | Some v => ret v
  | None => raise (KeyError key)
  end.

Definition no_tokens_message : string :=
  "No tokens in database and no BLUEBEAM_REFRESH_TOKEN in environment".

Definition get_valid_access_token (self : TokenManager) : M string :=
  tokens <- get_tokens self ;;
  match tokens with
  | None =>
      initial_refresh_token <- os_getenv "BLUEBEAM_REFRESH_TOKEN" ;;
      match initial_refresh_token with
      | None | Some EmptyString => raise (Exception no_tokens_message)
      | Some initial_refresh_token =>
          new_tokens <- refresh_access_token self initial_refresh_token ;;
          a <- getitem "access_token" (json_access_token new_tokens) ;;
          r <- getitem "refresh_token" (json_refresh_token new_tokens) ;;
          e <- getitem "expires_in" (json_expires_in new_tokens) ;;
          save_tokens self a r e ;;;
          getitem "access_token" (json_access_token new_tokens)
      end
  | Some tokens =>
      now <- time_time ;;
      if py_gt (expires_at tokens) (float_add (float_of_timestamp now) (float_of_int 300))
      then ret (access_token tokens)
      else
        new_tokens <- refresh_access_token self (refresh_token tokens) ;;
        a <- getitem "access_token" (json_access_token new_tokens) ;;
        r <- getitem "refresh_token" (json_refresh_token new_tokens) ;;
        e <- getitem "expires_in" (json_expires_in new_tokens) ;;
        save_tokens self a r e ;;;
        getitem "access_token" (json_access_token new_tokens)
  end.

(** ** Vocabulary of the statements *)

(** The value of a finite double as a rational number. *)
Definition timestamp_value (t : timestamp) : Q :=
  if (0 <=? exponent t)%Z then inject_Z (mantissa t * 2 ^ exponent t)
  else Qmake (mantissa t) (Z.to_pos (2 ^ (- exponent t))).

Definition float_value (x : float) : option Q :=
  match x with
  | S754_zero _ => Some 0%Q
  | S754_finite s m e =>
      Some (timestamp_value {| mantissa := cond_Zopp s (Zpos m); exponent := e |})
  | _ => None
  end.

(** [n] is the whole number of seconds of a time that is not negative. *)
Definition whole_seconds (t : timestamp) (n : Z) : Prop :=
  (0 <= n)%Z /\
  (inject_Z n <= timestamp_value t)%Q /\
  (timestamp_value t < inject_Z (n + 1))%Q.

(** The database a connection to the path sees, when one can be had. *)
Definition opened_database (path : string) (w : world) : option database :=
  if private_name path then Some ∅
  else
    match files w !! path with
    | Some (Database db) => Some db
    | Some _ => None
    | None => Some ∅
    end.

(** The rows of the manager's table, when its database has the table. *)
Definition stored_rows (self : TokenManager) (w : world) : option (list row) :=
  opened_database (db_path self) w ≫= (.!! "tokens").

(** The row [save_tokens] leaves in the table. *)
Definition saved_row (access_token refresh_token : string) (expires_at : Z) : row :=
  {| row_id := 1;
     row_refresh_token := refresh_token;
     row_access_token := access_token;
     row_expires_at := expires_at |}.

(** What [get_tokens] makes of the rows of the table. *)
Definition first_tokens (rows : list row) : option tokens :=
  match rows with
  | [] => None
  | r :: _ => Some {| access_token := row_access_token r;
                      refresh_token := row_refresh_token r;
                      expires_at := row_expires_at r |}
  end.

(** The world after one more reading of the clock. *)
Definition tick (w : world) : world := with_clock_reads (S (clock_reads w)) w.

(** The value the next call of [time.time()] returns. *)
Definition next_time (w : world) : timestamp := clock w (clock_reads w).

(** The double [time.time() + 300] evaluates to at the next reading of
    the clock. *)
Definition deadline (w : world) : float :=
  float_add (float_of_timestamp (next_time w)) (float_of_int 300).

(** The request a refresh posts for a manager and a refresh token. *)
Definition refresh_request (self : TokenManager) (refresh_token : string) : Request :=
  {| req_url := token_url;
     req_headers :=
       [("Content-Type", "application/x-www-form-urlencoded");
        ("Authorization",
         "Basic " ++ b64encode (py_str (client_id self) ++ ":" ++
                                py_str (client_secret self)))];
     req_data :=
       [("grant_type", "refresh_token");
        ("refresh_token", refresh_token)] |}.

(** The steps the two refreshing branches of [get_valid_access_token]
    share: exchange the refresh token, store the three members of the
    answer, return its access token. *)
Definition refresh_and_save (self : TokenManager) (refresh_token : string) : M string :=
  new_tokens <- refresh_access_token self refresh_token ;;
  a <- getitem "access_token" (json_access_token new_tokens) ;;
  r <- getitem "refresh_token" (json_refresh_token new_tokens) ;;
  e <- getitem "expires_in" (json_expires_in new_tokens) ;;
  save_tokens self a r e ;;;
  getitem "access_token" (json_access_token new_tokens).

(** The call has to refresh, and with this refresh token: the store is
    empty and the environment has a bootstrap token, or the stored
    [expires_at] is not greater than the double [time.time() + 300]. *)
Definition needs_refresh (self : TokenManager) (w : world) (rt : string) : Prop :=
  (fst (get_tokens self w) = Return None /\
   environ w !! "BLUEBEAM_REFRESH_TOKEN" = Some rt /\ rt <> EmptyString)
  \/
  (exists t q, fst (get_tokens self w) = Return (Some t) /\
               float_value (deadline w) = Some q /\
               (inject_Z (expires_at t) <= q)%Q /\
               rt = refresh_token t).

(** The reading of the clock at which a refreshing call saves: the first
    reading of the call on the bootstrap path, the second, after the
    test of the expiry, when a record is stored. *)
Definition save_clock (self : TokenManager) (w : world) : timestamp :=
  match fst (get_tokens self w) with
  | Return (Some _) => next_time (tick w)
  | _ => next_time w
  end.

(** The single-slot invariant: the table has at most one row. *)
Definition single_slot (self : TokenManager) (w : world) : Prop :=
  forall rows, stored_rows self w = Some rows -> (length rows <= 1)%nat.

(** A successful exchange: HTTP 200 with a JSON body that has the three
    members. *)
Definition token_response (body : string) (a r : string) (e : Z) : Response :=
  {| status_code := 200;
     text := body;
     json := Return {| json_access_token := Some a;
                       json_refresh_token := Some r;
                       json_expires_in := Some e |} |}.

(** The world with another set of environment variables. *)
Definition with_environ (env : gmap string string) (w : world) : world :=
  {| environ := env; files := files w; clock := clock w;
     clock_reads := clock_reads w; endpoint := endpoint w; posted := posted w |}.

(** The first of the three members, in the order the code subscripts
    them, that a JSON object lacks. *)
Definition first_missing_member (j : token_json) : option string :=
  match json_access_token j, json_refresh_token j, json_expires_in j with
  | None, _, _ => Some "access_token"
  | Some _, None, _ => Some "refresh_token"
  | Some _, Some _, None => Some "expires_in"
  | Some _, Some _, Some _ => None
  end.

(** ** Sample worlds *)

Abbreviation transport :=
  (gmap string string -> list Request -> Request -> result Response).

Definition sample_body : string :=
  "{access_token: at1, refresh_token: rt1, expires_in: 3600}".

(** An endpoint that accepts every refresh token and answers with the
    pair [at1], [rt1], valid for the given number of seconds. *)
Definition granting (expires_in : Z) : transport :=
  fun _ _ _ => Return (token_response sample_body "at1" "rt1" expires_in).

Definition accepting : transport := granting 3600.

(** The answer to a refresh token the provider no longer honours. *)
Definition refusal : Response :=
  {| status_code := 401;
     text := "invalid_grant";
     json := Return {| json_access_token := None;
                       json_refresh_token := None;
                       json_expires_in := None |} |}.

(** An endpoint that rejects every request with status 401. *)
Definition rejecting : transport := fun _ _ _ => Return refusal.

Definition connection_refused : exn :=
  PyExc "requests.exceptions.ConnectionError" "connection refused".

Definition not_json : exn :=
  PyExc "requests.exceptions.JSONDecodeError" "Expecting value".

(** An endpoint that cannot be reached. *)
Definition unreachable : transport := fun _ _ _ => Raise connection_refused.

(** A 200 answer with a page that is no JSON. *)
Definition garbled_page : Response :=
  {| status_code := 200; text := "<html>"; json := Raise not_json |}.

Definition garbled : transport := fun _ _ _ => Return garbled_page.

(** A 200 answer with a new access token and no refresh token. *)
Definition unrotated_json : token_json :=
  {| json_access_token := Some "at1";
     json_refresh_token := None;
     json_expires_in := Some 3600%Z |}.

Definition unrotated_answer : Response :=
  {| status_code := 200; text := "{access_token: at1}";
     json := Return unrotated_json |}.

Definition unrotated : transport := fun _ _ _ => Return unrotated_answer.

(** An endpoint that works through a proxy only: it answers when the
    environment names one and cannot be reached otherwise. *)
Definition behind_proxy : transport :=
  fun env _ _ =>
    match env !! "HTTPS_PROXY" with
    | Some _ => Return (token_response sample_body "at1" "rt1" 3600)
    | None => Raise connection_refused
    end.

Definition sample_manager : TokenManager :=
  {| db_path := "tokens.db"; client_id := Some "id"; client_secret := Some "secret" |}.

(** A manager constructed without client credentials. *)
Definition anonymous_manager : TokenManager :=
  {| db_path := "tokens.db"; client_id := None; client_secret := None |}.

Definition sample_environ : gmap string string :=
  <["BLUEBEAM_CLIENT_ID" := "id"]>
    (<["BLUEBEAM_CLIENT_SECRET" := "secret"]>
       (<["BLUEBEAM_REFRESH_TOKEN" := "rt0"]> ∅)).

(** An environment with the bootstrap token and no client credentials. *)
Definition bootstrap_only : gmap string string :=
  {[ "BLUEBEAM_REFRESH_TOKEN" := "rt0" ]}.

(** A whole number of seconds as a time. *)
Definition seconds (n : Z) : timestamp := {| mantissa := n; exponent := 0 |}.

(** A clock that shows [now] at first and two seconds more at each later
    reading ([now] with an exponent that is not positive). *)
Definition sample_clock (now : timestamp) (n : nat) : timestamp :=
  {| mantissa := mantissa now + 2 * Z.of_nat n * 2 ^ (- exponent now);
     exponent := exponent now |}.

(** A world whose file [tokens.db] holds the table with the given rows. *)
Definition sample_world (env : gmap string string) (rows : list row)
    (now : timestamp) (ep : transport) : world :=
  {| environ := env;
     files := {[ "tokens.db" := Database {[ "tokens" := rows ]} ]};
     clock := sample_clock now;
     clock_reads := 0;
     endpoint := ep;
     posted := [] |}.

Definition old_row : row := saved_row "at0" "rt0" 1000.

Definition old_tokens : tokens :=
  {| access_token := "at0"; refresh_token := "rt0"; expires_at := 1000 |}.

Definition second_row : row :=
  {| row_id := 2; row_refresh_token := "rt9";
     row_access_token := "at9"; row_expires_at := 5000 |}.

(** The stored token is good for 400 more seconds. *)
Definition world_fresh : world :=
  sample_world sample_environ [old_row] (seconds 600) accepting.
(** The stored token expires in exactly 300 seconds. *)
Definition world_expiring : world :=
  sample_world sample_environ [old_row] (seconds 700) accepting.
(** As [world_expiring], with an endpoint that refuses. *)
Definition world_refused : world :=
  sample_world sample_environ [old_row] (seconds 700) rejecting.
(** Nothing stored, bootstrap token configured; the clock at 1000.5 s. *)
Definition world_empty : world :=
  sample_world sample_environ [] {| mantissa := 2001; exponent := -1 |} accepting.
(** Nothing stored, nothing configured. *)
Definition world_bare : world := sample_world ∅ [] (seconds 1000) accepting.
(** Nothing stored, the bootstrap token configured, no client credentials. *)
Definition world_no_credentials : world :=
  sample_world bootstrap_only [] (seconds 1000) accepting.
(** As [world_no_credentials], with an endpoint that refuses. *)
Definition world_no_credentials_refused : world :=
  sample_world bootstrap_only [] (seconds 1000) rejecting.
(** A table that holds two rows. *)
Definition world_two_rows : world :=
  sample_world sample_environ [old_row; second_row] (seconds 1000) accepting.

Definition world_unreachable : world :=
  sample_world sample_environ [old_row] (seconds 700) unreachable.
Definition world_garbled : world :=
  sample_world sample_environ [old_row] (seconds 700) garbled.
Definition world_unrotated : world :=
  sample_world sample_environ [old_row] (seconds 700) unrotated.
(** The endpoint hands out tokens that last one minute. *)
Definition world_short_lived : world :=
  sample_world sample_environ [old_row] (seconds 700) (granting 60).
(** The endpoint hands out tokens with an expiry no SQLite INTEGER holds. *)
Definition world_endless : world :=
  sample_world sample_environ [old_row] (seconds 700) (granting (2 ^ 63 - 1)).
(** As [world_endless], with nothing stored. *)
Definition world_empty_endless : world :=
  sample_world sample_environ [] (seconds 1000) (granting (2 ^ 63 - 1)).
(** As [world_expiring], behind a proxy the environment does not name. *)
Definition world_behind_proxy : world :=
  sample_world sample_environ [old_row] (seconds 700) behind_proxy.

(** The clock one tick of a double below 2^31 seconds; the stored token
    expires 300 seconds after 2^31. *)
Definition late_row : row := saved_row "at0" "rt0" (2 ^ 31 + 300).
Definition late_tokens : tokens :=
  {| access_token := "at0"; refresh_token := "rt0"; expires_at := 2 ^ 31 + 300 |}.
Definition world_rounding : world :=
  sample_world sample_environ [late_row]
    {| mantissa := 2 ^ 53 - 1; exponent := -22 |} accepting.

(** A world with no database file at all. *)
Definition world_no_file : world :=
  {| environ := sample_environ;
     files := ∅;
     clock := sample_clock (seconds 1000);
     clock_reads := 0;
     endpoint := accepting;
     posted := [] |}.

(** A world whose database file has lost its table. *)
Definition world_no_table : world :=
  {| environ := sample_environ;
     files := {[ "tokens.db" := Database ∅ ]};
     clock := sample_clock (seconds 1000);
     clock_reads := 0;
     endpoint := accepting;
     posted := [] |}.

(** A world where [tokens.db] is a directory, and [notes.db] a text
    file. *)
Definition world_bad_files : world :=
  {| environ := sample_environ;
     files := {[ "tokens.db" := Unopenable; "notes.db" := NotADatabase ]};
     clock := sample_clock (seconds 1000);
     clock_reads := 0;
     endpoint := accepting;
     posted := [] |}.

(** * Properties *)

(** ** The primitives *)

Lemma two_power_pos (e : Z) : (e < 0 -> 0 < 2 ^ (- e))%Z.
Proof. intros H. apply Z.pow_pos_nonneg; lia. Qed.

Lemma py_gt_true (n : Z) (x : float) (q : Q) :
  float_value x = Some q -> (py_gt n x = true <-> (q < inject_Z n)%Q).
Proof.
  destruct x as [s | s | | s m e]; simpl; try discriminate; intros [= <-].
  - unfold Qlt. simpl. rewrite Z.ltb_lt. lia.
  - unfold timestamp_value. simpl.
    destruct (0 <=? e)%Z eqn:He.
    + rewrite Z.ltb_lt. unfold Qlt. simpl. lia.
    + apply Z.leb_gt in He. rewrite Z.ltb_lt. unfold Qlt. simpl.
      rewrite Z2Pos.id by (apply two_power_pos; exact He). lia.
Qed.

Lemma py_gt_false (n : Z) (x : float) (q : Q) :
  float_value x = Some q -> (py_gt n x = false <-> (inject_Z n <= q)%Q).
Proof.
  intros H. pose proof (py_gt_true n x q H) as Ht.
  destruct (py_gt n x).
  - split; [discriminate |]. intros Hle.
    exfalso. apply (Qlt_not_le q (inject_Z n)); [apply Ht; reflexivity | exact Hle].
  - split; [| reflexivity]. intros _.
    apply Qnot_lt_le. intros Hlt. apply Ht in Hlt. discriminate.
Qed.

Lemma py_int_whole_seconds (t : timestamp) (n : Z) :
  whole_seconds t n -> py_int t = n.
Proof.
  unfold whole_seconds, timestamp_value, py_int.
  intros (Hn & Hlo & Hhi).
  destruct (0 <=? exponent t)%Z eqn:He.
  - unfold Qle in Hlo. unfold Qlt in Hhi. simpl in Hlo, Hhi. lia.
  - apply Z.leb_gt in He.
    pose proof (two_power_pos _ He) as Hk.
    unfold Qle in Hlo. unfold Qlt in Hhi. simpl in Hlo, Hhi.
    rewrite Z2Pos.id in Hlo, Hhi by exact Hk.
    set (k := (2 ^ (- exponent t))%Z) in *.
    assert (Hm : (0 <= mantissa t)%Z) by nia.
    rewrite Z.quot_div_nonneg by lia.
    symmetry. apply (Z.div_unique_pos _ _ n (mantissa t - n * k)); lia.
Qed.

Lemma with_files_same (w : world) : with_files (files w) w = w.
Proof. destruct w; reflexivity. Qed.

(** ** The store *)

Lemma stored_rows_file self w rows :
  stored_rows self w = Some rows ->
  private_name (db_path self) = false /\
  exists db, files w !! db_path self = Some (Database db) /\
             db !! "tokens" = Some rows.
Proof.
  unfold stored_rows, opened_database.
  destruct (private_name (db_path self)); simpl.
  - rewrite lookup_empty. discriminate.
  - destruct (files w !! db_path self) as [[db | |] |]; simpl;
      try (rewrite ?lookup_empty; discriminate).
    intros H. split; [reflexivity |]. exists db. split; [reflexivity | exact H].
Qed.

Lemma get_tokens_eq self w :
  get_tokens self w =
    if private_name (db_path self) then (Raise no_such_table, w)
    else
      match files w !! db_path self with
      | Some (Database db) =>
          match db !! "tokens" with
          | Some rows => (Return (first_tokens rows), w)
          | None => (Raise no_such_table, w)
          end
      | Some NotADatabase => (Raise not_a_database, w)
      | Some Unopenable => (Raise unable_to_open, w)
      | None =>
          (Raise no_such_table,
           with_files (<[db_path self := Database ∅]> (files w)) w)
      end.
Proof.
  unfold get_tokens, bind, sqlite3_connect, lift, sql_select_fetchone, close, ret.
  destruct (private_name (db_path self)); simpl.
  - rewrite lookup_empty. reflexivity.
  - destruct (files w !! db_path self) as [[db | |] |]; simpl;
      try (rewrite ?lookup_empty; reflexivity).
    destruct (db !! "tokens") as [[| r rest] |]; reflexivity.
Qed.

Lemma get_tokens_rows self w rows :
  stored_rows self w = Some rows ->
  get_tokens self w = (Return (first_tokens rows), w).
Proof.
  intros H. apply stored_rows_file in H as (Hp & db & Hf & Ht).
  rewrite get_tokens_eq, Hp, Hf, Ht. reflexivity.
Qed.

Lemma get_tokens_Return self w t :
  fst (get_tokens self w) = Return t ->
  exists rows, stored_rows self w = Some rows /\ first_tokens rows = t.
Proof.
  rewrite get_tokens_eq. unfold stored_rows, opened_database.
  destruct (private_name (db_path self)); [discriminate |].
  destruct (files w !! db_path self) as [[db | |] |]; simpl; try discriminate.
  destruct (db !! "tokens") as [rows |]; simpl; [| discriminate].
  intros [= <-]. exists rows. split; reflexivity.
Qed.

Lemma get_tokens_no_rows self w :
  stored_rows self w = None ->
  exists x, fst (get_tokens self w) = Raise x /\
            posted (snd (get_tokens self w)) = posted w /\
            environ (snd (get_tokens self w)) = environ w /\
            stored_rows self (snd (get_tokens self w)) = None.
Proof.
  intros H. rewrite get_tokens_eq.
  destruct (private_name (db_path self)) eqn:Hp.
  { eexists. repeat split. exact H. }
  destruct (files w !! db_path self) as [[db | |] |] eqn:Hf.
  - destruct (db !! "tokens") as [rows |] eqn:Ht.
    + exfalso. unfold stored_rows, opened_database in H.
      rewrite Hp, Hf in H. simpl in H. congruence.
    + eexists. repeat split. exact H.
  - eexists. repeat split. exact H.
  - eexists. repeat split. exact H.
  - eexists. repeat split. simpl.
    unfold stored_rows, opened_database. rewrite Hp. simpl.
    rewrite lookup_insert_eq. simpl. apply lookup_empty.
Qed.

Lemma get_tokens_no_table self w db :
  opened_database (db_path self) w = Some db ->
  db !! "tokens" = None ->
  fst (get_tokens self w) = Raise no_such_table.
Proof.
  rewrite get_tokens_eq. unfold opened_database.
  destruct (private_name (db_path self)); [reflexivity |].
  destruct (files w !! db_path self) as [[db' | |] |]; simpl;
    try discriminate; try reflexivity.
  intros [= ->] ->. reflexivity.
Qed.

Lemma save_tokens_eq self a r e w :
  save_tokens self a r e w =
    let w1 := tick w in
    let ea := (py_int (next_time w) + e)%Z in
    if private_name (db_path self) then (Raise no_such_table, w1)
    else
      match files w !! db_path self with
      | Some (Database db) =>
          match db !! "tokens" with
          | Some _ =>
              if int64 ea then
                (Return tt,
                 with_files
                   (<[db_path self :=
                        Database (<["tokens" := [saved_row a r ea]]> db)]> (files w))
                   w1)
              else (Raise int_too_large, w1)
          | None => (Raise no_such_table, w1)
          end
      | Some NotADatabase => (Raise not_a_database, w1)
      | Some Unopenable => (Raise unable_to_open, w1)
      | None =>
          (Raise no_such_table,
           with_files (<[db_path self := Database ∅]> (files w)) w1)
      end.
Proof.
  unfold save_tokens, bind, time_time, sqlite3_connect, lift, sql_delete,
    sql_insert, commit, close, ret, tick, next_time.
  simpl.
  destruct (private_name (db_path self)); simpl.
  - rewrite lookup_empty. reflexivity.
  - destruct (files w !! db_path self) as [[db | |] |]; simpl;
      try (rewrite ?lookup_empty; reflexivity).
    destruct (db !! "tokens") as [rows |]; simpl; [| reflexivity].
    rewrite lookup_insert_eq.
    destruct (int64 _); simpl; [| reflexivity].
    rewrite insert_insert_eq. reflexivity.
Qed.

Lemma save_tokens_rows self w a r e rows :
  stored_rows self w = Some rows ->
  int64 (py_int (next_time w) + e) = true ->
  exists db, files w !! db_path self = Some (Database db) /\
    save_tokens self a r e w =
      (Return tt,
       with_files
         (<[db_path self :=
              Database (<["tokens" := [saved_row a r (py_int (next_time w) + e)]]> db)]>
            (files w))
         (tick w)).
Proof.
  intros H Hfit. apply stored_rows_file in H as (Hp & db & Hf & Ht).
  exists db. split; [exact Hf |].
  rewrite save_tokens_eq. cbv zeta. rewrite Hp, Hf, Ht, Hfit. reflexivity.
Qed.

Lemma save_tokens_overflow self w a r e rows :
  stored_rows self w = Some rows ->
  int64 (py_int (next_time w) + e) = false ->
  save_tokens self a r e w = (Raise int_too_large, tick w).
Proof.
  intros H Hfit. apply stored_rows_file in H as (Hp & db & Hf & Ht).
  rewrite save_tokens_eq. cbv zeta. rewrite Hp, Hf, Ht, Hfit. reflexivity.
Qed.

Lemma stored_rows_saved self db row0 fs w :
  private_name (db_path self) = false ->
  stored_rows self
    (with_files (<[db_path self := Database (<["tokens" := [row0]]> db)]> fs) w) =
    Some [row0].
Proof.
  intros Hp. unfold stored_rows, opened_database. rewrite Hp. simpl.
  rewrite lookup_insert_eq. simpl. apply lookup_insert_eq.
Qed.

(** What a save leaves in the store: the one new row when it returns,
    the rows as they were when it raises. *)
Lemma save_tokens_outcome self w a r e rows :
  stored_rows self w = Some rows ->
  (fst (save_tokens self a r e w) = Return tt /\
   int64 (py_int (next_time w) + e) = true /\
   stored_rows self (snd (save_tokens self a r e w)) =
     Some [saved_row a r (py_int (next_time w) + e)]) \/
  (fst (save_tokens self a r e w) = Raise int_too_large /\
   int64 (py_int (next_time w) + e) = false /\
   snd (save_tokens self a r e w) = tick w).
Proof.
  intros Hrows.
  destruct (int64 (py_int (next_time w) + e)) eqn:Hfit.
  - left.
    destruct (save_tokens_rows self w a r e rows Hrows Hfit) as (db & Hf & ->).
    simpl. split; [reflexivity |]. split; [reflexivity |].
    apply stored_rows_saved. exact (proj1 (stored_rows_file _ _ _ Hrows)).
  - right. rewrite (save_tokens_overflow self w a r e rows Hrows Hfit).
    repeat split.
Qed.

(** ** The exchange *)

Lemma refresh_access_token_eq self rt w :
  refresh_access_token self rt w =
    let req := refresh_request self rt in
    let w' := with_posted (posted w ++ [req])%list w in
    match endpoint w (environ w) (posted w) req with
    | Return resp =>
        if (status_code resp =? 200)%Z then (json resp, w')
        else (Raise (Exception ("Failed to refresh token: " ++ text resp)), w')
    | Raise e => (Raise e, w')
    end.
Proof.
  unfold refresh_access_token, bind, requests_post, refresh_request, lift, raise.
  simpl. destruct (endpoint w (environ w) (posted w) _) as [resp | e];
    [| reflexivity].
  destruct (status_code resp =? 200)%Z; reflexivity.
Qed.

Lemma save_tokens_posted self a r e w :
  posted (snd (save_tokens self a r e w)) = posted w.
Proof.
  rewrite save_tokens_eq. cbv zeta.
  destruct (private_name (db_path self)); [reflexivity |].
  destruct (files w !! db_path self) as [[db | |] |]; try reflexivity.
  destruct (db !! "tokens"); [| reflexivity].
  destruct (int64 _); reflexivity.
Qed.

Lemma refresh_and_save_eq self rt w :
  refresh_and_save self rt w =
    let req := refresh_request self rt in
    let w1 := with_posted (posted w ++ [req])%list w in
    match endpoint w (environ w) (posted w) req with
    | Return resp =>
        if (status_code resp =? 200)%Z then
          match json resp with
          | Return j =>
              match json_access_token j with
              | Some a =>
                  match json_refresh_token j with
                  | Some r =>
                      match json_expires_in j with
                      | Some e =>
                          match save_tokens self a r e w1 with
                          | (Return _, w2) => (Return a, w2)
                          | (Raise x, w2) => (Raise x, w2)
                          end
                      | None => (Raise (KeyError "expires_in"), w1)
                      end
                  | None => (Raise (KeyError "refresh_token"), w1)
                  end
              | None => (Raise (KeyError "access_token"), w1)
              end
          | Raise x => (Raise x, w1)
          end
        else (Raise (Exception ("Failed to refresh token: " ++ text resp)), w1)
    | Raise x => (Raise x, w1)
    end.
Proof.
  unfold refresh_and_save, bind at 1. rewrite refresh_access_token_eq. simpl.
  destruct (endpoint w (environ w) (posted w) _) as [resp | x]; [| reflexivity].
  destruct (status_code resp =? 200)%Z; [| reflexivity].
  destruct (json resp) as [j | x]; [| reflexivity].
  unfold bind, getitem, ret, raise.
  destruct (json_access_token j); [| reflexivity].
  destruct (json_refresh_token j); [| reflexivity].
  destruct (json_expires_in j); reflexivity.
Qed.

(** Case analysis on how far [refresh_and_save] gets: [tac] closes the
    cases that stop before the save. *)
Ltac exchange_cases w tac :=
  rewrite ?refresh_and_save_eq; cbv zeta;
  let resp := fresh "resp" in
  let x := fresh "x" in
  let j := fresh "j" in
  destruct (endpoint w (environ w) (posted w) _) as [resp | x]; [| tac];
  destruct (status_code resp =? 200)%Z; [| tac];
  destruct (json resp) as [j | x]; [| tac];
  destruct (json_access_token j) as [?a |]; [| tac];
  destruct (json_refresh_token j) as [?r |]; [| tac];
  destruct (json_expires_in j) as [?e |]; [| tac].

Lemma refresh_and_save_posted self rt w :
  posted (snd (refresh_and_save self rt w)) =
    (posted w ++ [refresh_request self rt])%list.
Proof.
  exchange_cases w ltac:(idtac; reflexivity).
  match goal with
  | |- context [save_tokens ?s ?a ?r ?e ?w0] =>
      pose proof (save_tokens_posted s a r e w0) as Hp;
      destruct (save_tokens s a r e w0) as [[u | x] w1]
  end; simpl in *; exact Hp.
Qed.

Lemma refresh_and_save_accepted self rt w rows body a r e :
  stored_rows self w = Some rows ->
  endpoint w (environ w) (posted w) (refresh_request self rt) =
    Return (token_response body a r e) ->
  int64 (py_int (next_time w) + e) = true ->
  fst (refresh_and_save self rt w) = Return a /\
  stored_rows self (snd (refresh_and_save self rt w)) =
    Some [saved_row a r (py_int (next_time w) + e)].
Proof.
  intros Hrows Hep Hfit.
  rewrite refresh_and_save_eq. simpl. rewrite Hep. simpl.
  set (w1 := with_posted _ w).
  destruct (save_tokens_rows self w1 a r e rows Hrows Hfit) as (db & Hf & ->).
  simpl. split; [reflexivity |].
  apply stored_rows_saved. exact (proj1 (stored_rows_file _ _ _ Hrows)).
Qed.

Lemma refresh_and_save_oversized self rt w rows body a r e :
  stored_rows self w = Some rows ->
  endpoint w (environ w) (posted w) (refresh_request self rt) =
    Return (token_response body a r e) ->
  int64 (py_int (next_time w) + e) = false ->
  refresh_and_save self rt w =
    (Raise int_too_large,
     tick (with_posted (posted w ++ [refresh_request self rt])%list w)).
Proof.
  intros Hrows Hep Hfit.
  rewrite refresh_and_save_eq. simpl. rewrite Hep. simpl.
  set (w1 := with_posted _ w).
  rewrite (save_tokens_overflow self w1 a r e rows Hrows Hfit). reflexivity.
Qed.

Lemma refresh_and_save_rejected self rt w resp :
  endpoint w (environ w) (posted w) (refresh_request self rt) = Return resp ->
  status_code resp <> 200%Z ->
  refresh_and_save self rt w =
    (Raise (Exception ("Failed to refresh token: " ++ text resp)),
     with_posted (posted w ++ [refresh_request self rt])%list w).
Proof.
  intros Hep Hst.
  rewrite refresh_and_save_eq. simpl.
  rewrite Hep. apply Z.eqb_neq in Hst. rewrite Hst. reflexivity.
Qed.

(** On a store that has its table, [refresh_and_save] either raises and
    leaves the files as they were, or returns the access token of the
    one row it has stored. *)
Lemma refresh_and_save_rows self rt w rows :
  stored_rows self w = Some rows ->
  (exists x, fst (refresh_and_save self rt w) = Raise x /\
             files (snd (refresh_and_save self rt w)) = files w) \/
  (exists v r ea, fst (refresh_and_save self rt w) = Return v /\
                  stored_rows self (snd (refresh_and_save self rt w)) =
                    Some [saved_row v r ea]).
Proof.
  intros Hrows.
  exchange_cases w ltac:(idtac; left; eexists; split; reflexivity).
  set (w1 := with_posted _ w).
  destruct (save_tokens_outcome self w1 a r e rows Hrows)
    as [(Hres & _ & Hs) | (Hres & _ & Hw)];
    destruct (save_tokens self a r e w1) as [[u | x] w2]; simpl in *;
    try discriminate.
  - right. eexists a, r, _. split; [reflexivity | exact Hs].
  - left. eexists. split; [reflexivity |]. rewrite Hw. reflexivity.
Qed.

Lemma stored_rows_files self w w' :
  files w' = files w -> stored_rows self w' = stored_rows self w.
Proof. unfold stored_rows, opened_database. intros ->. reflexivity. Qed.

Lemma refresh_and_save_Return self rt w rows v :
  stored_rows self w = Some rows ->
  fst (refresh_and_save self rt w) = Return v ->
  exists r ea, stored_rows self (snd (refresh_and_save self rt w)) =
                 Some [saved_row v r ea].
Proof.
  intros Hrows Hret.
  destruct (refresh_and_save_rows self rt w rows Hrows)
    as [(x & Hx & _) | (v' & r & ea & Hv & Hs)]; [congruence |].
  exists r, ea. congruence.
Qed.

Lemma refresh_and_save_Raise_files self rt w rows x :
  stored_rows self w = Some rows ->
  fst (refresh_and_save self rt w) = Raise x ->
  files (snd (refresh_and_save self rt w)) = files w.
Proof.
  intros Hrows Hraise.
  destruct (refresh_and_save_rows self rt w rows Hrows)
    as [(x' & _ & Hf) | (v' & r & ea & Hv & _)]; [exact Hf | congruence].
Qed.


(** ** The policy of [get_valid_access_token] *)

Lemma get_valid_access_token_rows self w rows :
  stored_rows self w = Some rows ->
  get_valid_access_token self w =
    match first_tokens rows with
    | None =>
        match environ w !! "BLUEBEAM_REFRESH_TOKEN" with
        | None | Some EmptyString => (Raise (Exception no_tokens_message), w)
        | Some rt => refresh_and_save self rt w
        end
    | Some t =>
        if py_gt (expires_at t) (deadline w)
        then (Return (access_token t), tick w)
        else refresh_and_save self (refresh_token t) (tick w)
    end.
Proof.
  intros Hrows.
  unfold get_valid_access_token, bind at 1.
  rewrite (get_tokens_rows self w rows Hrows).
  destruct (first_tokens rows) as [t |].
  - unfold bind at 1, time_time. fold (next_time w). fold (deadline w).
    destruct (py_gt (expires_at t) (deadline w)); reflexivity.
  - unfold bind at 1, os_getenv.
    destruct (environ w !! "BLUEBEAM_REFRESH_TOKEN") as [[| c rt] |]; reflexivity.
Qed.

Lemma get_valid_access_token_no_rows self w :
  stored_rows self w = None ->
  exists x,
    get_valid_access_token self w = (Raise x, snd (get_tokens self w)) /\
    fst (get_tokens self w) = Raise x.
Proof.
  intros H. apply get_tokens_no_rows in H as (x & Hx & _).
  exists x. split; [| exact Hx].
  unfold get_valid_access_token, bind at 1.
  destruct (get_tokens self w) as [[t | y] w1]; simpl in *; congruence.
Qed.

Lemma app_one_neq {A} (l : list A) (x : A) : l <> (l ++ [x])%list.
Proof.
  intros H. apply (f_equal (@length A)) in H.
  rewrite length_app in H. simpl in H. lia.
Qed.

(** On a store that has its table, a call either raises and leaves the
    files as they were, or returns the access token of the first row the
    store then has. *)
Lemma get_valid_access_token_after self w rows :
  stored_rows self w = Some rows ->
  (exists x, fst (get_valid_access_token self w) = Raise x /\
             files (snd (get_valid_access_token self w)) = files w) \/
  (exists v r rest,
     fst (get_valid_access_token self w) = Return v /\
     stored_rows self (snd (get_valid_access_token self w)) = Some (r :: rest) /\
     row_access_token r = v).
Proof.
  intros Hrows.
  assert (Hsave : forall rt w0, stored_rows self w0 = Some rows ->
    files w0 = files w ->
    (exists x, fst (refresh_and_save self rt w0) = Raise x /\
               files (snd (refresh_and_save self rt w0)) = files w) \/
    (exists v r rest,
       fst (refresh_and_save self rt w0) = Return v /\
       stored_rows self (snd (refresh_and_save self rt w0)) = Some (r :: rest) /\
       row_access_token r = v)).
  { intros rt w0 H0 Hf0.
    destruct (refresh_and_save_rows self rt w0 rows H0)
      as [(x & Hx & Hf) | (v & r & ea & Hv & Hs)].
    - left. exists x. split; [exact Hx | congruence].
    - right. exists v, (saved_row v r ea), []. repeat split; assumption. }
  rewrite (get_valid_access_token_rows self w rows Hrows).
  destruct rows as [| r0 rest0]; simpl.
  - destruct (environ w !! "BLUEBEAM_REFRESH_TOKEN") as [[| c rt] |].
    + left. eauto.
    + apply Hsave; [exact Hrows | reflexivity].
    + left. eauto.
  - destruct (py_gt (row_expires_at r0) (deadline w)).
    + right. exists (row_access_token r0), r0, rest0. repeat split. exact Hrows.
    + exact (Hsave (row_refresh_token r0) (tick w) Hrows eq_refl).
Qed.

Lemma int64_true (n : Z) : (- 2 ^ 63 <= n < 2 ^ 63)%Z -> int64 n = true.
Proof.
  intros [Hlo Hhi]. unfold int64.
  apply andb_true_intro. split; [apply Z.leb_le | apply Z.ltb_lt]; assumption.
Qed.

Lemma int64_false (n : Z) : (2 ^ 63 <= n)%Z -> int64 n = false.
Proof.
  intros H. unfold int64. apply andb_false_intro2. apply Z.ltb_ge. exact H.
Qed.

(** ** The claims of the specification *)

(** C1, as the code has it: a stored record whose [expires_at] is
    strictly greater than the double [time.time() + 300] (the current
    time plus 300 seconds, rounded to a double) is served from the cache:
    the call returns its access token unchanged, posts nothing to the
    OAuth endpoint and writes nothing to the token store. *)
Theorem cached_token_returned self w t q :
  fst (get_tokens self w) = Return (Some t) ->
  float_value (deadline w) = Some q ->
  (q < inject_Z (expires_at t))%Q ->
  fst (get_valid_access_token self w) = Return (access_token t) /\
  posted (snd (get_valid_access_token self w)) = posted w /\
  files (snd (get_valid_access_token self w)) = files w.
Proof.
  intros Hget Hq Hfresh.
  apply get_tokens_Return in Hget as (rows & Hrows & Hfirst).
  rewrite (get_valid_access_token_rows self w rows Hrows), Hfirst.
  apply (py_gt_true _ _ _ Hq) in Hfresh. rewrite Hfresh.
  repeat split.
Qed.

(** C2, as the code has it: a stored record whose [expires_at] is at
    most the double [time.time() + 300] makes the call post exactly one
    refresh request, with that record's refresh token; when the exchange
    succeeds and [now + expires_in] fits a signed 64-bit integer, [now]
    being the whole seconds of the clock at the save, the store then
    holds the replacement record (the access and the rotated refresh
    token of the response, [expires_at = now + expires_in]) as its only
    row, and the call returns the new access token. *)
Theorem expiring_token_refreshed self w t q :
  fst (get_tokens self w) = Return (Some t) ->
  float_value (deadline w) = Some q ->
  (inject_Z (expires_at t) <= q)%Q ->
  let req := refresh_request self (refresh_token t) in
  let out := get_valid_access_token self w in
  posted (snd out) = (posted w ++ [req])%list /\
  forall body a r e now,
    endpoint w (environ w) (posted w) req = Return (token_response body a r e) ->
    whole_seconds (next_time (tick w)) now ->
    (- 2 ^ 63 <= now + e < 2 ^ 63)%Z ->
    fst out = Return a /\
    stored_rows self (snd out) = Some [saved_row a r (now + e)] /\
    fst (get_tokens self (snd out)) =
      Return (Some {| access_token := a; refresh_token := r;
                      expires_at := now + e |}).
Proof.
  intros Hget Hq Hold req out. subst req out.
  apply get_tokens_Return in Hget as (rows & Hrows & Hfirst).
  rewrite (get_valid_access_token_rows self w rows Hrows), Hfirst.
  apply (py_gt_false _ _ _ Hq) in Hold. rewrite Hold.
  split.
  - exact (refresh_and_save_posted self (refresh_token t) (tick w)).
  - intros body a r e now Hep Hnow Hfit.
    apply py_int_whole_seconds in Hnow. subst now.
    apply int64_true in Hfit.
    destruct (refresh_and_save_accepted self (refresh_token t) (tick w) rows
                body a r e Hrows Hep Hfit) as [Hres Hst].
    split; [exact Hres |]. split; [exact Hst |].
    rewrite (get_tokens_rows _ _ _ Hst). reflexivity.
Qed.

(** C3, as the code has it: with no record in the store and a bootstrap
    refresh token in the environment, the call posts exactly one refresh
    request, with the bootstrap token; when the exchange succeeds and
    [now + expires_in] fits a signed 64-bit integer, the store holds the
    tokens of the response as a new record by the time the call returns,
    and the call returns the access token of the response. *)
Theorem bootstrap_from_empty_store self w rt0 :
  fst (get_tokens self w) = Return None ->
  environ w !! "BLUEBEAM_REFRESH_TOKEN" = Some rt0 ->
  rt0 <> EmptyString ->
  let req := refresh_request self rt0 in
  let out := get_valid_access_token self w in
  posted (snd out) = (posted w ++ [req])%list /\
  forall body a r e now,
    endpoint w (environ w) (posted w) req = Return (token_response body a r e) ->
    whole_seconds (next_time w) now ->
    (- 2 ^ 63 <= now + e < 2 ^ 63)%Z ->
    fst out = Return a /\
    stored_rows self (snd out) = Some [saved_row a r (now + e)] /\
    fst (get_tokens self (snd out)) =
      Return (Some {| access_token := a; refresh_token := r;
                      expires_at := now + e |}).
Proof.
  intros Hget Henv Hne req out. subst req out.
  apply get_tokens_Return in Hget as (rows & Hrows & Hfirst).
  rewrite (get_valid_access_token_rows self w rows Hrows), Hfirst, Henv.
  destruct rt0 as [| c rt0]; [congruence |].
  split.
  - apply refresh_and_save_posted.
  - intros body a r e now Hep Hnow Hfit.
    apply py_int_whole_seconds in Hnow. subst now.
    apply int64_true in Hfit.
    destruct (refresh_and_save_accepted self (String c rt0) w rows
                body a r e Hrows Hep Hfit) as [Hres Hst].
    split; [exact Hres |]. split; [exact Hst |].
    rewrite (get_tokens_rows _ _ _ Hst). reflexivity.
Qed.

(** C4, as the code has it: with no record in the store and no bootstrap
    refresh token in the environment (the variable unset or empty), the
    call raises a plain [Exception] with the message
    [No tokens in database and no BLUEBEAM_REFRESH_TOKEN in environment],
    and leaves the world as it was: nothing is posted to the OAuth
    endpoint. *)
Theorem no_bootstrap_raises_Exception self w :
  fst (get_tokens self w) = Return None ->
  environ w !! "BLUEBEAM_REFRESH_TOKEN" = None \/
  environ w !! "BLUEBEAM_REFRESH_TOKEN" = Some EmptyString ->
  get_valid_access_token self w =
    (Raise (PyExc "Exception"
              "No tokens in database and no BLUEBEAM_REFRESH_TOKEN in environment"),
     w).
Proof.
  intros Hget Henv.
  apply get_tokens_Return in Hget as (rows & Hrows & Hfirst).
  rewrite (get_valid_access_token_rows self w rows Hrows), Hfirst.
  destruct Henv as [-> | ->]; reflexivity.
Qed.

(** C5, as the code has it: whenever the call posts a refresh request and
    the endpoint answers it with a status other than 200, the call raises
    a plain [Exception] whose message is [Failed to refresh token: ]
    followed by the raw response body, and the database files are exactly
    as before the call. *)
Theorem rejected_refresh_raises_Exception self w req resp :
  posted (snd (get_valid_access_token self w)) = (posted w ++ [req])%list ->
  endpoint w (environ w) (posted w) req = Return resp ->
  status_code resp <> 200%Z ->
  fst (get_valid_access_token self w) =
    Raise (PyExc "Exception" ("Failed to refresh token: " ++ text resp)) /\
  files (snd (get_valid_access_token self w)) = files w.
Proof.
  intros Hposted Hep Hst.
  destruct (stored_rows self w) as [rows |] eqn:Hrows.
  - rewrite (get_valid_access_token_rows self w rows Hrows) in Hposted |- *.
    destruct (first_tokens rows) as [t |].
    + destruct (py_gt (expires_at t) (deadline w)).
      * simpl in Hposted.
        exfalso. exact (app_one_neq _ _ Hposted).
      * pose proof (refresh_and_save_posted self (refresh_token t) (tick w)) as Hp.
        rewrite Hp in Hposted. simpl in Hposted.
        apply app_inv_head in Hposted. injection Hposted as Hreq.
        rewrite (refresh_and_save_rejected self (refresh_token t) (tick w) resp).
        -- split; reflexivity.
        -- simpl. rewrite Hreq. exact Hep.
        -- exact Hst.
    + destruct (environ w !! "BLUEBEAM_REFRESH_TOKEN") as [[| c rt] |].
      * simpl in Hposted.
        exfalso. exact (app_one_neq _ _ Hposted).
      * rewrite refresh_and_save_posted in Hposted.
        apply app_inv_head in Hposted. injection Hposted as Hreq.
        rewrite (refresh_and_save_rejected self (String c rt) w resp).
        -- split; reflexivity.
        -- rewrite Hreq. exact Hep.
        -- exact Hst.
      * simpl in Hposted.
        exfalso. exact (app_one_neq _ _ Hposted).
  - destruct (get_valid_access_token_no_rows self w Hrows) as (x & Heq & _).
    rewrite Heq in Hposted. simpl in Hposted.
    destruct (get_tokens_no_rows self w Hrows) as (_ & _ & Hp & _).
    rewrite Hp in Hposted.
    exfalso. exact (app_one_neq _ _ Hposted).
Qed.

(** C10: after every call that returns, on the bootstrap, the refresh or
    the cached path alike, the token store holds a record and the access
    token returned is the [access_token] of that record. *)
Theorem returned_token_is_stored self w v :
  fst (get_valid_access_token self w) = Return v ->
  exists t,
    fst (get_tokens self (snd (get_valid_access_token self w))) = Return (Some t) /\
    access_token t = v.
Proof.
  intros Hret.
  destruct (stored_rows self w) as [rows |] eqn:Hrows.
  - destruct (get_valid_access_token_after self w rows Hrows)
      as [(x & Hx & _) | (v' & r & rest & Hv & Hs & Hr)]; [congruence |].
    rewrite (get_tokens_rows _ _ _ Hs). simpl.
    eexists. split; [reflexivity |]. simpl. congruence.
  - destruct (get_valid_access_token_no_rows self w Hrows) as (x & Heq & _).
    rewrite Heq in Hret. discriminate.
Qed.

(** ** Saving and loading *)

(** C6, as the code has it: for every token record whose [expires_at]
    fits a signed 64-bit integer, saving it and then loading from the
    store returns a record with the same access token, refresh token and
    expiry ([save_tokens] takes the expiry as the number of seconds from
    the current whole second). *)
Theorem save_then_load self w t e now rows :
  stored_rows self w = Some rows ->
  whole_seconds (next_time w) now ->
  (now + e)%Z = expires_at t ->
  (- 2 ^ 63 <= expires_at t < 2 ^ 63)%Z ->
  fst (save_tokens self (access_token t) (refresh_token t) e w) = Return tt /\
  fst (get_tokens self
         (snd (save_tokens self (access_token t) (refresh_token t) e w))) =
    Return (Some t).
Proof.
  intros Hrows Hnow He Hfit.
  apply py_int_whole_seconds in Hnow. subst now. rewrite <- He in Hfit.
  apply int64_true in Hfit.
  destruct (save_tokens_rows self w (access_token t) (refresh_token t) e rows
              Hrows Hfit) as (db & Hf & ->).
  simpl. split; [reflexivity |].
  pose proof (proj1 (stored_rows_file _ _ _ Hrows)) as Hp.
  rewrite (get_tokens_rows _ _ _ (stored_rows_saved _ _ _ _ _ Hp)).
  simpl. rewrite He. destruct t; reflexivity.
Qed.




(** ** Initialisation *)

Lemma init_db_eq self w :
  _init_db self w =
    if private_name (db_path self) then (Return tt, w)
    else
      match files w !! db_path self with
      | Some (Database db) =>
          (Return tt,
           with_files
             (<[db_path self :=
                  Database match db !! "tokens" with
                           | Some _ => db
                           | None => <["tokens" := []]> db
                           end]> (files w)) w)
      | Some NotADatabase => (Raise not_a_database, w)
      | Some Unopenable => (Raise unable_to_open, w)
      | None =>
          (Return tt,
           with_files
             (<[db_path self := Database (<["tokens" := []]> ∅)]> (files w)) w)
      end.
Proof.
  unfold _init_db, bind, sqlite3_connect, lift, sql_create_table_if_not_exists,
    commit, close, ret.
  destruct (private_name (db_path self)); simpl.
  - rewrite lookup_empty. reflexivity.
  - destruct (files w !! db_path self) as [[db | |] |]; simpl; try reflexivity.
    + destruct (db !! "tokens"); reflexivity.
    + rewrite lookup_empty. simpl. unfold with_files. simpl.
      rewrite insert_insert_eq. reflexivity.
Qed.

Lemma init_db_existing self w rows :
  stored_rows self w = Some rows -> _init_db self w = (Return tt, w).
Proof.
  intros H. apply stored_rows_file in H as (Hp & db & Hf & Ht).
  rewrite init_db_eq, Hp, Hf, Ht.
  rewrite (insert_id _ _ _ Hf). rewrite with_files_same. reflexivity.
Qed.

(** When the constructor's table creation returns on a path that names a
    file, the table is there. *)
Lemma init_db_makes_table self w :
  private_name (db_path self) = false ->
  fst (_init_db self w) = Return tt ->
  exists rows, stored_rows self (snd (_init_db self w)) = Some rows.
Proof.
  intros Hp. rewrite init_db_eq, Hp.
  unfold stored_rows, opened_database. rewrite Hp.
  destruct (files w !! db_path self) as [[db | |] |]; simpl; try discriminate;
    intros _; rewrite lookup_insert_eq; simpl.
  - destruct (db !! "tokens") as [rows |] eqn:Ht.
    + exists rows. exact Ht.
    + exists []. apply lookup_insert_eq.
  - exists []. apply lookup_insert_eq.
Qed.

Lemma init_db_twice self w :
  fst (_init_db self w) = Return tt ->
  _init_db self (snd (_init_db self w)) = (Return tt, snd (_init_db self w)).
Proof.
  intros Hret.
  destruct (private_name (db_path self)) eqn:Hp.
  - rewrite !init_db_eq, Hp. reflexivity.
  - destruct (init_db_makes_table self w Hp Hret) as [rows Hrows].
    exact (init_db_existing self _ rows Hrows).
Qed.

Lemma init_db_single_slot self w :
  single_slot self w -> single_slot self (snd (_init_db self w)).
Proof.
  intros Hw.
  destruct (stored_rows self w) as [rows |] eqn:Hrows.
  { rewrite (init_db_existing self w rows Hrows). exact Hw. }
  rewrite init_db_eq.
  destruct (private_name (db_path self)) eqn:Hp; [exact Hw |].
  destruct (files w !! db_path self) as [[db | |] |] eqn:Hf;
    try exact Hw; intros rows'; unfold stored_rows, opened_database in *;
    rewrite Hp in *; rewrite Hf in Hrows; simpl in *;
    rewrite lookup_insert_eq; simpl.
  - rewrite Hrows, lookup_insert_eq. intros [= <-]. simpl. lia.
  - rewrite lookup_insert_eq. intros [= <-]. simpl. lia.
Qed.

(** C9: initialisation is idempotent: run on a store whose table already
    exists, it returns and leaves the world, and with it the stored
    record, exactly as it was. *)
Theorem init_db_idempotent self w rows :
  stored_rows self w = Some rows ->
  _init_db self w = (Return tt, w) /\
  stored_rows self (snd (_init_db self w)) = Some rows /\
  fst (get_tokens self (snd (_init_db self w))) = fst (get_tokens self w).
Proof.
  intros Hrows. rewrite (init_db_existing self w rows Hrows). simpl.
  split; [reflexivity |]. split; [exact Hrows | reflexivity].
Qed.

Lemma init_eq path w :
  __init__ path w =
    let self := {| db_path := path;
                   client_id := environ w !! "BLUEBEAM_CLIENT_ID";
                   client_secret := environ w !! "BLUEBEAM_CLIENT_SECRET" |} in
    match _init_db self w with
    | (Return _, w1) => (Return self, w1)
    | (Raise x, w1) => (Raise x, w1)
    end.
Proof.
  unfold __init__, bind at 1, os_getenv. unfold bind at 1. unfold bind at 1.
  cbv zeta.
  destruct (_init_db _ w) as [[u | x] w1]; reflexivity.
Qed.

Lemma init_Return path w self w1 :
  __init__ path w = (Return self, w1) ->
  self = {| db_path := path;
            client_id := environ w !! "BLUEBEAM_CLIENT_ID";
            client_secret := environ w !! "BLUEBEAM_CLIENT_SECRET" |} /\
  _init_db self w = (Return tt, w1).
Proof.
  rewrite init_eq. cbv zeta.
  destruct (_init_db _ w) as [[[] | x] w0] eqn:Hinit; [| discriminate].
  intros [= <- <-]. split; [reflexivity | exact Hinit].
Qed.

(** ** Client credentials *)

Lemma needs_refresh_exchange self w rt :
  needs_refresh self w rt ->
  exists rows w1,
    stored_rows self w1 = Some rows /\
    posted w1 = posted w /\ endpoint w1 = endpoint w /\
    environ w1 = environ w /\ files w1 = files w /\
    next_time w1 = save_clock self w /\
    get_valid_access_token self w = refresh_and_save self rt w1.
Proof.
  unfold save_clock.
  intros [(Hget & Henv & Hne) | (t & q & Hget & Hq & Hold & ->)];
    rewrite Hget;
    apply get_tokens_Return in Hget as (rows & Hrows & Hfirst);
    exists rows.
  - exists w. repeat split; try assumption.
    rewrite (get_valid_access_token_rows self w rows Hrows), Hfirst, Henv.
    destruct rt; [congruence | reflexivity].
  - exists (tick w). repeat split; try assumption.
    rewrite (get_valid_access_token_rows self w rows Hrows), Hfirst.
    apply (py_gt_false _ _ _ Hq) in Hold. rewrite Hold. reflexivity.
Qed.

Lemma needs_refresh_posted self w rt :
  needs_refresh self w rt ->
  posted (snd (get_valid_access_token self w)) =
    (posted w ++ [refresh_request self rt])%list.
Proof.
  intros H.
  apply needs_refresh_exchange in H as (rows & w1 & _ & Hp & _ & _ & _ & _ & ->).
  rewrite refresh_and_save_posted, Hp. reflexivity.
Qed.

Lemma needs_refresh_rejected self w rt resp :
  needs_refresh self w rt ->
  endpoint w (environ w) (posted w) (refresh_request self rt) = Return resp ->
  status_code resp <> 200%Z ->
  fst (get_valid_access_token self w) =
    Raise (Exception ("Failed to refresh token: " ++ text resp)).
Proof.
  intros H Hep Hst.
  apply needs_refresh_exchange in H
    as (rows & w1 & _ & Hp & He & Hv & _ & _ & ->).
  rewrite <- Hp, <- He, <- Hv in Hep.
  rewrite (refresh_and_save_rejected self rt w1 resp Hep Hst). reflexivity.
Qed.

Lemma needs_refresh_accepted self w rt body a r e now :
  needs_refresh self w rt ->
  endpoint w (environ w) (posted w) (refresh_request self rt) =
    Return (token_response body a r e) ->
  whole_seconds (save_clock self w) now ->
  (- 2 ^ 63 <= now + e < 2 ^ 63)%Z ->
  fst (get_valid_access_token self w) = Return a /\
  stored_rows self (snd (get_valid_access_token self w)) =
    Some [saved_row a r (now + e)].
Proof.
  intros H Hep Hnow Hfit.
  apply needs_refresh_exchange in H
    as (rows & w1 & Hrows & Hp & He & Hv & _ & Ht & ->).
  rewrite <- Hp, <- He, <- Hv in Hep. rewrite <- Ht in Hnow.
  apply py_int_whole_seconds in Hnow. subst now. apply int64_true in Hfit.
  exact (refresh_and_save_accepted self rt w1 rows body a r e Hrows Hep Hfit).
Qed.

(** C8, as the code has it: when the client credentials are missing from
    the environment the manager is constructed in, nothing checks for
    it: a call that has to refresh posts the exchange all the same, the
    text [None] standing for each missing value in the Basic credentials,
    and has the outcome the answer of the endpoint gives: the plain
    [Exception] of a refused exchange on a status other than 200, the new
    access token on a successful response whose expiry fits a signed
    64-bit integer. *)
Theorem missing_credentials_not_checked path w0 self w1 w rt :
  environ w0 !! "BLUEBEAM_CLIENT_ID" = None \/
  environ w0 !! "BLUEBEAM_CLIENT_SECRET" = None ->
  __init__ path w0 = (Return self, w1) ->
  needs_refresh self w rt ->
  let credentials :=
    default "None" (environ w0 !! "BLUEBEAM_CLIENT_ID") ++ ":" ++
    default "None" (environ w0 !! "BLUEBEAM_CLIENT_SECRET") in
  let req :=
    {| req_url := "https://api.bluebeam.com/oauth2/token";
       req_headers :=
         [("Content-Type", "application/x-www-form-urlencoded");
          ("Authorization", "Basic " ++ b64encode credentials)];
       req_data := [("grant_type", "refresh_token"); ("refresh_token", rt)] |} in
  let out := get_valid_access_token self w in
  posted (snd out) = (posted w ++ [req])%list /\
  (forall resp,
     endpoint w (environ w) (posted w) req = Return resp ->
     status_code resp <> 200%Z ->
     fst out = Raise (PyExc "Exception" ("Failed to refresh token: " ++ text resp))) /\
  (forall body a r e now,
     endpoint w (environ w) (posted w) req = Return (token_response body a r e) ->
     whole_seconds (save_clock self w) now ->
     (- 2 ^ 63 <= now + e < 2 ^ 63)%Z ->
     fst out = Return a).
Proof.
  intros _ Hinit Hneed. apply init_Return in Hinit as [-> _].
  cbv zeta. split; [| split].
  - exact (needs_refresh_posted _ _ _ Hneed).
  - intros resp Hep Hst. exact (needs_refresh_rejected _ _ _ _ Hneed Hep Hst).
  - intros body a r e now Hep Hnow Hfit.
    exact (proj1 (needs_refresh_accepted _ _ _ _ _ _ _ _ Hneed Hep Hnow Hfit)).
Qed.

(** ** The claims at sample worlds *)

Example b64encode_one_byte : b64encode "M" = "TQ==".
Proof. reflexivity. Qed.

Example b64encode_two_bytes : b64encode "Ma" = "TWE=".
Proof. reflexivity. Qed.

Example b64encode_three_bytes : b64encode "Man" = "TWFu".
Proof. reflexivity. Qed.

Example b64encode_no_credentials : b64encode "None:None" = "Tm9uZTpOb25l".
Proof. reflexivity. Qed.

Example py_int_truncates :
  py_int {| mantissa := 2001; exponent := -1 |} = 1000%Z /\
  py_int {| mantissa := -3; exponent := -1 |} = (-1)%Z /\
  py_int {| mantissa := 5; exponent := 2 |} = 20%Z.
Proof. repeat split. Qed.

(** The sum of doubles rounds: one tick of a double below 2^31, plus 300,
    is 2^31 + 300. *)
Example deadline_rounds :
  (exists q, float_value (deadline world_rounding) = Some q /\
             (q == inject_Z (2 ^ 31 + 300))%Q) /\
  (timestamp_value (next_time world_rounding) + 300 < inject_Z (2 ^ 31 + 300))%Q.
Proof.
  split; [| vm_compute; reflexivity].
  eexists. split; [vm_compute; reflexivity | vm_compute; reflexivity].
Qed.

Lemma cached_token_returned_witness :
  exists q,
    fst (get_tokens sample_manager world_fresh) = Return (Some old_tokens) /\
    float_value (deadline world_fresh) = Some q /\
    (q == 900)%Q /\
    (q < inject_Z 1000)%Q /\
    fst (get_valid_access_token sample_manager world_fresh) = Return "at0" /\
    posted (snd (get_valid_access_token sample_manager world_fresh)) = [] /\
    files (snd (get_valid_access_token sample_manager world_fresh)) =
      files world_fresh.
Proof.
  assert (h1 : fst (get_tokens sample_manager world_fresh) =
               Return (Some old_tokens)) by (vm_compute; reflexivity).
  eexists.
  split; [exact h1 |].
  split; [vm_compute; reflexivity |].
  split; [vm_compute; reflexivity |].
  assert (h3 : (7916483719987200 # 8796093022208 <
                inject_Z (expires_at old_tokens))%Q) by (vm_compute; reflexivity).
  split; [exact h3 |].
  exact (cached_token_returned sample_manager world_fresh old_tokens _ h1
           eq_refl h3).
Defined.

(** C1 as the specification words it does not hold: one tick of a double
    below 2^31 seconds the stored token expires more than 300 seconds
    after the current time, yet the rounded sum equals its expiry and the
    call refreshes. *)
Lemma cached_claim_fails_at_rounding :
  ~ (forall self w t,
       fst (get_tokens self w) = Return (Some t) ->
       (timestamp_value (next_time w) + 300 < inject_Z (expires_at t))%Q ->
       fst (get_valid_access_token self w) = Return (access_token t) /\
       posted (snd (get_valid_access_token self w)) = posted w /\
       files (snd (get_valid_access_token self w)) = files w).
Proof.
  intros claim.
  destruct (claim sample_manager world_rounding late_tokens) as (_ & Hposted & _);
    [vm_compute; reflexivity | vm_compute; reflexivity |].
  vm_compute in Hposted. discriminate Hposted.
Qed.

Lemma expiring_token_refreshed_witness :
  let out := get_valid_access_token sample_manager world_expiring in
  exists q,
    fst (get_tokens sample_manager world_expiring) = Return (Some old_tokens) /\
    float_value (deadline world_expiring) = Some q /\
    (q == 1000)%Q /\
    (inject_Z 1000 <= q)%Q /\
    whole_seconds (next_time (tick world_expiring)) 702 /\
    posted (snd out) = [refresh_request sample_manager "rt0"] /\
    fst out = Return "at1" /\
    stored_rows sample_manager (snd out) = Some [saved_row "at1" "rt1" 4302].
Proof.
  assert (h1 : fst (get_tokens sample_manager world_expiring) =
               Return (Some old_tokens)) by (vm_compute; reflexivity).
  assert (h2 : float_value (deadline world_expiring) =
               Some (8796093022208000 # 8796093022208))
    by (vm_compute; reflexivity).
  assert (h3 : (inject_Z (expires_at old_tokens) <=
                8796093022208000 # 8796093022208)%Q)
    by (unfold Qle; simpl; lia).
  assert (h4 : whole_seconds (next_time (tick world_expiring)) 702).
  { split; [lia |]. split; [unfold Qle; simpl; lia | unfold Qlt; simpl; lia]. }
  assert (h5 : (- 2 ^ 63 <= 702 + 3600 < 2 ^ 63)%Z) by lia.
  destruct (expiring_token_refreshed sample_manager world_expiring old_tokens _
              h1 h2 h3) as [Hposted Hok].
  destruct (Hok sample_body "at1" "rt1" 3600%Z 702%Z eq_refl h4 h5)
    as (Hres & Hrows & _).
  cbv zeta. eexists. split; [exact h1 |]. split; [exact h2 |].
  split; [vm_compute; reflexivity |]. split; [exact h3 |].
  split; [exact h4 |].
  split; [exact Hposted |]. split; [exact Hres | exact Hrows].
Defined.

(** C2 as the specification words it does not hold: a successful
    response whose [expires_in] carries [now + expires_in] out of the
    64-bit range makes the INSERT raise, and nothing is persisted. *)
Lemma expiring_claim_fails_at_overflow :
  ~ (forall self w t body a r e,
       fst (get_tokens self w) = Return (Some t) ->
       (inject_Z (expires_at t) <= timestamp_value (next_time w) + 300)%Q ->
       endpoint w (environ w) (posted w) (refresh_request self (refresh_token t)) =
         Return (token_response body a r e) ->
       fst (get_valid_access_token self w) = Return a /\
       exists now,
         fst (get_tokens self (snd (get_valid_access_token self w))) =
           Return (Some {| access_token := a; refresh_token := r;
                           expires_at := now + e |})).
Proof.
  intros claim.
  destruct (claim sample_manager world_endless old_tokens
              sample_body "at1" "rt1" (2 ^ 63 - 1)%Z) as [Hres _];
    [vm_compute; reflexivity | vm_compute; discriminate | reflexivity |].
  vm_compute in Hres. discriminate Hres.
Qed.

Lemma bootstrap_from_empty_store_witness :
  let out := get_valid_access_token sample_manager world_empty in
  fst (get_tokens sample_manager world_empty) = Return None /\
  environ world_empty !! "BLUEBEAM_REFRESH_TOKEN" = Some "rt0" /\
  whole_seconds (next_time world_empty) 1000 /\
  posted (snd out) = [refresh_request sample_manager "rt0"] /\
  fst out = Return "at1" /\
  stored_rows sample_manager (snd out) = Some [saved_row "at1" "rt1" 4600].
Proof.
  assert (h1 : fst (get_tokens sample_manager world_empty) = Return None)
    by (vm_compute; reflexivity).
  assert (h2 : environ world_empty !! "BLUEBEAM_REFRESH_TOKEN" = Some "rt0")
    by (vm_compute; reflexivity).
  assert (h3 : "rt0" <> EmptyString) by discriminate.
  assert (h4 : whole_seconds (next_time world_empty) 1000).
  { split; [lia |]. split; [unfold Qle; simpl; lia | unfold Qlt; simpl; lia]. }
  assert (h5 : (- 2 ^ 63 <= 1000 + 3600 < 2 ^ 63)%Z) by lia.
  destruct (bootstrap_from_empty_store sample_manager world_empty "rt0" h1 h2 h3)
    as [Hposted Hok].
  destruct (Hok sample_body "at1" "rt1" 3600%Z 1000%Z eq_refl h4 h5)
    as (Hres & Hrows & _).
  cbv zeta. split; [exact h1 |]. split; [exact h2 |]. split; [exact h4 |].
  split; [exact Hposted |]. split; [exact Hres | exact Hrows].
Defined.

(** C3 as the specification words it does not hold: the bootstrap
    exchange succeeds, the expiry does not fit a SQLite INTEGER, the call
    raises and the store stays empty. *)
Lemma bootstrap_claim_fails_at_overflow :
  ~ (forall self w rt0 body a r e,
       fst (get_tokens self w) = Return None ->
       environ w !! "BLUEBEAM_REFRESH_TOKEN" = Some rt0 ->
       rt0 <> EmptyString ->
       endpoint w (environ w) (posted w) (refresh_request self rt0) =
         Return (token_response body a r e) ->
       fst (get_valid_access_token self w) = Return a /\
       exists t,
         fst (get_tokens self (snd (get_valid_access_token self w))) =
           Return (Some t)).
Proof.
  intros claim.
  destruct (claim sample_manager world_empty_endless "rt0"
              sample_body "at1" "rt1" (2 ^ 63 - 1)%Z) as [Hres _];
    [vm_compute; reflexivity | vm_compute; reflexivity | discriminate
    | reflexivity |].
  vm_compute in Hres. discriminate Hres.
Qed.

Lemma no_bootstrap_raises_Exception_witness :
  fst (get_tokens sample_manager world_bare) = Return None /\
  environ world_bare !! "BLUEBEAM_REFRESH_TOKEN" = None /\
  get_valid_access_token sample_manager world_bare =
    (Raise (PyExc "Exception"
              "No tokens in database and no BLUEBEAM_REFRESH_TOKEN in environment"),
     world_bare).
Proof.
  assert (h1 : fst (get_tokens sample_manager world_bare) = Return None)
    by (vm_compute; reflexivity).
  assert (h2 : environ world_bare !! "BLUEBEAM_REFRESH_TOKEN" = None)
    by (vm_compute; reflexivity).
  split; [exact h1 |]. split; [exact h2 |].
  exact (no_bootstrap_raises_Exception sample_manager world_bare h1 (or_introl h2)).
Defined.

(** C4 as the specification words it does not hold: the exception raised
    is not a [ConfigurationError] and its message is another. *)
Lemma no_bootstrap_not_ConfigurationError :
  ~ (forall self w,
       fst (get_tokens self w) = Return None ->
       environ w !! "BLUEBEAM_REFRESH_TOKEN" = None ->
       fst (get_valid_access_token self w) =
         Raise (PyExc "ConfigurationError"
                  "no cached credential and no bootstrap refresh token available") /\
       posted (snd (get_valid_access_token self w)) = posted w).
Proof.
  intros claim.
  destruct (claim sample_manager world_bare) as [Hraise _];
    [vm_compute; reflexivity | vm_compute; reflexivity |].
  vm_compute in Hraise. discriminate Hraise.
Qed.

Lemma rejected_refresh_raises_Exception_witness :
  let out := get_valid_access_token sample_manager world_refused in
  let req := refresh_request sample_manager "rt0" in
  posted (snd out) = (posted world_refused ++ [req])%list /\
  endpoint world_refused (environ world_refused) (posted world_refused) req =
    Return refusal /\
  status_code refusal <> 200%Z /\
  fst out = Raise (PyExc "Exception" "Failed to refresh token: invalid_grant") /\
  files (snd out) = files world_refused.
Proof.
  cbv zeta.
  assert (h1 : posted (snd (get_valid_access_token sample_manager world_refused)) =
               (posted world_refused ++ [refresh_request sample_manager "rt0"])%list)
    by (vm_compute; reflexivity).
  assert (h2 : endpoint world_refused (environ world_refused) (posted world_refused)
                 (refresh_request sample_manager "rt0") = Return refusal)
    by reflexivity.
  assert (h3 : status_code refusal <> 200%Z) by (simpl; lia).
  split; [exact h1 |]. split; [exact h2 |]. split; [exact h3 |].
  exact (rejected_refresh_raises_Exception sample_manager world_refused
           (refresh_request sample_manager "rt0") refusal h1 h2 h3).
Defined.

(** C5 as the specification words it does not hold: the exception raised
    on a refused exchange is not an [UpstreamAuthError]. *)
Lemma rejected_refresh_not_UpstreamAuthError :
  ~ (forall self w req resp,
       posted (snd (get_valid_access_token self w)) = (posted w ++ [req])%list ->
       endpoint w (environ w) (posted w) req = Return resp ->
       status_code resp <> 200%Z ->
       (exists msg, fst (get_valid_access_token self w) =
                      Raise (PyExc "UpstreamAuthError" msg)) /\
       files (snd (get_valid_access_token self w)) = files w).
Proof.
  intros claim.
  destruct (claim sample_manager world_refused
              (refresh_request sample_manager "rt0") refusal)
    as [[msg Hraise] _];
    [vm_compute; reflexivity | vm_compute; reflexivity | simpl; lia |].
  vm_compute in Hraise. discriminate Hraise.
Qed.

Lemma returned_token_is_stored_witness :
  fst (get_valid_access_token sample_manager world_expiring) = Return "at1" /\
  exists t,
    fst (get_tokens sample_manager
           (snd (get_valid_access_token sample_manager world_expiring))) =
      Return (Some t) /\
    access_token t = "at1".
Proof.
  assert (h : fst (get_valid_access_token sample_manager world_expiring) =
              Return "at1") by (vm_compute; reflexivity).
  split; [exact h |].
  exact (returned_token_is_stored sample_manager world_expiring "at1" h).
Defined.

Lemma save_then_load_witness :
  stored_rows sample_manager world_two_rows = Some [old_row; second_row] /\
  whole_seconds (next_time world_two_rows) 1000 /\
  fst (get_tokens sample_manager
         (snd (save_tokens sample_manager "at1" "rt1" 3600 world_two_rows))) =
    Return (Some {| access_token := "at1"; refresh_token := "rt1";
                    expires_at := 4600 |}).
Proof.
  assert (h1 : stored_rows sample_manager world_two_rows =
               Some [old_row; second_row]) by (vm_compute; reflexivity).
  assert (h2 : whole_seconds (next_time world_two_rows) 1000).
  { split; [lia |]. split; [unfold Qle; simpl; lia | unfold Qlt; simpl; lia]. }
  assert (h3 : (- 2 ^ 63 <= 4600 < 2 ^ 63)%Z) by lia.
  split; [exact h1 |]. split; [exact h2 |].
  exact (proj2 (save_then_load sample_manager world_two_rows
                  {| access_token := "at1"; refresh_token := "rt1";
                     expires_at := 4600 |} 3600 1000 _ h1 h2 eq_refl h3)).
Defined.

(** C6 as the specification words it does not hold: a record whose
    expiry is 2^63 cannot be saved, and loading returns the record that
    was there before. *)
Lemma save_claim_fails_at_overflow :
  ~ (forall self w t e now rows,
       stored_rows self w = Some rows ->
       whole_seconds (next_time w) now ->
       (now + e)%Z = expires_at t ->
       fst (get_tokens self
              (snd (save_tokens self (access_token t) (refresh_token t) e w))) =
         Return (Some t)).
Proof.
  intros claim.
  assert (h2 : whole_seconds (next_time world_fresh) 600).
  { split; [lia |]. split; [unfold Qle; simpl; lia | unfold Qlt; simpl; lia]. }
  pose proof (claim sample_manager world_fresh
                {| access_token := "at1"; refresh_token := "rt1";
                   expires_at := 2 ^ 63 |}
                (2 ^ 63 - 600)%Z 600%Z [old_row] eq_refl h2 eq_refl) as Hload.
  vm_compute in Hload. discriminate Hload.
Qed.

Example oversized_save :
  save_tokens sample_manager "at1" "rt1" (2 ^ 63 - 600) world_fresh =
    (Raise (PyExc "OverflowError"
              "Python int too large to convert to SQLite INTEGER"),
     tick world_fresh).
Proof. vm_compute. reflexivity. Qed.



Lemma init_db_idempotent_witness :
  stored_rows sample_manager world_fresh = Some [old_row] /\
  _init_db sample_manager world_fresh = (Return tt, world_fresh).
Proof.
  assert (h1 : stored_rows sample_manager world_fresh = Some [old_row])
    by (vm_compute; reflexivity).
  split; [exact h1 |].
  exact (proj1 (init_db_idempotent sample_manager world_fresh _ h1)).
Defined.

Lemma anonymous_needs_refresh ep :
  needs_refresh anonymous_manager
    (sample_world bootstrap_only [] (seconds 1000) ep) "rt0".
Proof.
  left. split; [vm_compute; reflexivity |].
  split; [vm_compute; reflexivity | discriminate].
Defined.

Lemma missing_credentials_not_checked_witness :
  let req :=
    {| req_url := "https://api.bluebeam.com/oauth2/token";
       req_headers :=
         [("Content-Type", "application/x-www-form-urlencoded");
          ("Authorization", "Basic Tm9uZTpOb25l")];
       req_data := [("grant_type", "refresh_token"); ("refresh_token", "rt0")] |} in
  environ world_no_credentials !! "BLUEBEAM_CLIENT_ID" = None /\
  __init__ "tokens.db" world_no_credentials =
    (Return anonymous_manager, world_no_credentials) /\
  posted (snd (get_valid_access_token anonymous_manager world_no_credentials)) =
    [req] /\
  fst (get_valid_access_token anonymous_manager world_no_credentials) =
    Return "at1" /\
  fst (get_valid_access_token anonymous_manager world_no_credentials_refused) =
    Raise (PyExc "Exception" "Failed to refresh token: invalid_grant").
Proof.
  cbv zeta.
  assert (h1 : environ world_no_credentials !! "BLUEBEAM_CLIENT_ID" = None)
    by (vm_compute; reflexivity).
  assert (h2 : __init__ "tokens.db" world_no_credentials =
               (Return anonymous_manager, world_no_credentials))
    by (vm_compute; reflexivity).
  assert (h3 : whole_seconds (save_clock anonymous_manager world_no_credentials)
                 1000).
  { split; [lia |].
    split; [vm_compute; discriminate | vm_compute; reflexivity]. }
  assert (h4 : (- 2 ^ 63 <= 1000 + 3600 < 2 ^ 63)%Z) by lia.
  assert (h5 : status_code refusal <> 200%Z) by (simpl; lia).
  destruct (missing_credentials_not_checked "tokens.db" world_no_credentials
              anonymous_manager world_no_credentials world_no_credentials "rt0"
              (or_introl h1) h2 (anonymous_needs_refresh accepting))
    as (Hposted & _ & Hok).
  destruct (missing_credentials_not_checked "tokens.db" world_no_credentials
              anonymous_manager world_no_credentials
              world_no_credentials_refused "rt0"
              (or_introl h1) h2 (anonymous_needs_refresh rejecting))
    as (_ & Hrefused & _).
  split; [exact h1 |]. split; [exact h2 |]. split; [exact Hposted |].
  split.
  - exact (Hok sample_body "at1" "rt1" 3600%Z 1000%Z eq_refl h3 h4).
  - exact (Hrefused refusal eq_refl h5).
Defined.

(** C8 as the specification words it does not hold: a manager built
    without client credentials posts the exchange, and the call returns
    the token the endpoint hands out. *)
Lemma missing_credentials_still_posts :
  ~ (forall path w0 self w,
       environ w0 !! "BLUEBEAM_CLIENT_ID" = None \/
       environ w0 !! "BLUEBEAM_CLIENT_SECRET" = None ->
       __init__ path w0 = (Return self, w) ->
       (exists msg, fst (get_valid_access_token self w) =
                      Raise (PyExc "ConfigurationError" msg)) /\
       posted (snd (get_valid_access_token self w)) = posted w).
Proof.
  intros claim.
  destruct (claim "tokens.db" world_no_credentials anonymous_manager
              world_no_credentials)
    as [[msg Hraise] _];
    [left; vm_compute; reflexivity | vm_compute; reflexivity |].
  vm_compute in Hraise. discriminate Hraise.
Qed.

(** * Further properties of the code *)

(** ** Failures of a call *)

(** X1: a call that raises, on a store whose table exists, has written
    nothing: the database files are as before the call, whatever the
    exception was. *)
Theorem failed_call_writes_nothing self w rows x :
  stored_rows self w = Some rows ->
  fst (get_valid_access_token self w) = Raise x ->
  files (snd (get_valid_access_token self w)) = files w.
Proof.
  intros Hrows Hraise.
  destruct (get_valid_access_token_after self w rows Hrows)
    as [(x' & _ & Hf) | (v & r & rest & Hv & _)]; [exact Hf | congruence].
Qed.

(** X2: when the call has to refresh and the POST itself fails (the
    endpoint cannot be reached), the exception of the transport reaches
    the caller unchanged, after that one attempt, and nothing is
    written. *)
Theorem transport_failure_propagates self w rt x :
  needs_refresh self w rt ->
  endpoint w (environ w) (posted w) (refresh_request self rt) = Raise x ->
  fst (get_valid_access_token self w) = Raise x /\
  posted (snd (get_valid_access_token self w)) =
    (posted w ++ [refresh_request self rt])%list /\
  files (snd (get_valid_access_token self w)) = files w.
Proof.
  intros Hneed Hep.
  apply needs_refresh_exchange in Hneed
    as (rows & w1 & Hrows & Hp & He & Hv & Hf & _ & ->).
  rewrite refresh_and_save_eq. simpl. rewrite Hp, He, Hv, Hep. simpl.
  rewrite ?Hp, ?Hf. repeat split.
Qed.

(** X3: when the endpoint answers 200 with a body [response.json()]
    cannot parse, the exception of the parser reaches the caller and
    nothing is written. *)
Theorem unparsable_answer_propagates self w rt resp x :
  needs_refresh self w rt ->
  endpoint w (environ w) (posted w) (refresh_request self rt) = Return resp ->
  status_code resp = 200%Z ->
  json resp = Raise x ->
  fst (get_valid_access_token self w) = Raise x /\
  files (snd (get_valid_access_token self w)) = files w.
Proof.
  intros Hneed Hep Hst Hjson.
  apply needs_refresh_exchange in Hneed
    as (rows & w1 & Hrows & Hp & He & Hv & Hf & _ & ->).
  rewrite refresh_and_save_eq. simpl. rewrite Hp, He, Hv, Hep, Hst, Hjson. simpl.
  split; [reflexivity | exact Hf].
Qed.

(** X4: when the endpoint answers 200 with a JSON object that lacks one
    of [access_token], [refresh_token], [expires_in], the call raises
    [KeyError] for the first one missing, in that order, and nothing is
    written: the store keeps the refresh token that was just spent. *)
Theorem missing_member_raises_KeyError self w rt resp j key :
  needs_refresh self w rt ->
  endpoint w (environ w) (posted w) (refresh_request self rt) = Return resp ->
  status_code resp = 200%Z ->
  json resp = Return j ->
  first_missing_member j = Some key ->
  fst (get_valid_access_token self w) = Raise (PyExc "KeyError" ("'" ++ key ++ "'")) /\
  files (snd (get_valid_access_token self w)) = files w.
Proof.
  intros Hneed Hep Hst Hjson Hkey.
  apply needs_refresh_exchange in Hneed
    as (rows & w1 & Hrows & Hp & He & Hv & Hf & _ & ->).
  rewrite refresh_and_save_eq. simpl. rewrite Hp, He, Hv, Hep, Hst, Hjson. simpl.
  unfold first_missing_member in Hkey.
  destruct (json_access_token j) as [a |];
    [| injection Hkey as <-; split; [reflexivity | exact Hf]].
  destruct (json_refresh_token j) as [r |];
    [| injection Hkey as <-; split; [reflexivity | exact Hf]].
  destruct (json_expires_in j) as [e |];
    [discriminate | injection Hkey as <-; split; [reflexivity | exact Hf]].
Qed.

(** ** What a call posts and what it leaves alone *)

(** X5: a call posts at most one request, and the one it posts is the
    refresh request of this manager: there is no retry and no other
    traffic, whatever the outcome. *)
Theorem at_most_one_request_per_call self w :
  posted (snd (get_valid_access_token self w)) = posted w \/
  exists rt,
    posted (snd (get_valid_access_token self w)) =
      (posted w ++ [refresh_request self rt])%list.
Proof.
  destruct (stored_rows self w) as [rows |] eqn:Hrows.
  - rewrite (get_valid_access_token_rows self w rows Hrows).
    destruct (first_tokens rows) as [t |].
    + destruct (py_gt (expires_at t) (deadline w)).
      * left. reflexivity.
      * right. exists (refresh_token t).
        exact (refresh_and_save_posted self (refresh_token t) (tick w)).
    + destruct (environ w !! "BLUEBEAM_REFRESH_TOKEN") as [[| c rt] |].
      * left. reflexivity.
      * right. exists (String c rt). apply refresh_and_save_posted.
      * left. reflexivity.
  - left.
    destruct (get_valid_access_token_no_rows self w Hrows) as (x & -> & _).
    destruct (get_tokens_no_rows self w Hrows) as (_ & _ & Hp & _).
    exact Hp.
Qed.

Lemma get_tokens_frame self w p :
  p <> db_path self ->
  files (snd (get_tokens self w)) !! p = files w !! p /\
  environ (snd (get_tokens self w)) = environ w.
Proof.
  intros Hp. rewrite get_tokens_eq.
  destruct (private_name (db_path self)); [split; reflexivity |].
  destruct (files w !! db_path self) as [[db | |] |];
    try (split; reflexivity).
  - destruct (db !! "tokens"); split; reflexivity.
  - simpl. split; [apply lookup_insert_ne; congruence | reflexivity].
Qed.

Lemma save_tokens_frame self a r e w p :
  p <> db_path self ->
  files (snd (save_tokens self a r e w)) !! p = files w !! p /\
  environ (snd (save_tokens self a r e w)) = environ w.
Proof.
  intros Hp. rewrite save_tokens_eq. cbv zeta.
  destruct (private_name (db_path self)); [split; reflexivity |].
  destruct (files w !! db_path self) as [[db | |] |];
    try (split; reflexivity).
  - destruct (db !! "tokens"); [| split; reflexivity].
    destruct (int64 _); [| split; reflexivity].
    simpl. split; [apply lookup_insert_ne; congruence | reflexivity].
  - simpl. split; [apply lookup_insert_ne; congruence | reflexivity].
Qed.

Lemma refresh_and_save_frame self rt w p :
  p <> db_path self ->
  files (snd (refresh_and_save self rt w)) !! p = files w !! p /\
  environ (snd (refresh_and_save self rt w)) = environ w.
Proof.
  intros Hp.
  exchange_cases w ltac:(idtac; split; reflexivity).
  match goal with
  | |- context [save_tokens ?s ?a ?r ?e ?w0] =>
      pose proof (save_tokens_frame s a r e w0 p Hp) as H;
      destruct (save_tokens s a r e w0) as [[u | x] w1]
  end; exact H.
Qed.

(** X6: a call touches no database file other than the manager's own
    [db_path], and never changes the environment variables. *)
Theorem other_files_untouched self w p :
  p <> db_path self ->
  files (snd (get_valid_access_token self w)) !! p = files w !! p /\
  environ (snd (get_valid_access_token self w)) = environ w.
Proof.
  intros Hp.
  destruct (stored_rows self w) as [rows |] eqn:Hrows.
  - rewrite (get_valid_access_token_rows self w rows Hrows).
    destruct (first_tokens rows) as [t |].
    + destruct (py_gt (expires_at t) (deadline w)).
      * split; reflexivity.
      * exact (refresh_and_save_frame self (refresh_token t) (tick w) p Hp).
    + destruct (environ w !! "BLUEBEAM_REFRESH_TOKEN") as [[| c rt] |];
        [split; reflexivity | | split; reflexivity].
      apply refresh_and_save_frame. exact Hp.
  - destruct (get_valid_access_token_no_rows self w Hrows) as (x & -> & _).
    simpl. apply get_tokens_frame. exact Hp.
Qed.

(** X7: a call never empties the store: when a record was stored before
    the call, one is stored after it, and after a call that raised it is
    the same record. *)
Theorem record_never_removed self w t :
  fst (get_tokens self w) = Return (Some t) ->
  exists t',
    fst (get_tokens self (snd (get_valid_access_token self w))) = Return (Some t') /\
    forall x, fst (get_valid_access_token self w) = Raise x -> t' = t.
Proof.
  intros Hget. apply get_tokens_Return in Hget as (rows & Hrows & Hfirst).
  destruct (get_valid_access_token_after self w rows Hrows)
    as [(x & Hx & Hf) | (v & r & rest & Hv & Hs & Hr)].
  - exists t.
    rewrite (get_tokens_rows _ _ rows); [| rewrite (stored_rows_files _ _ _ Hf);
                                          exact Hrows].
    simpl. rewrite Hfirst. split; [reflexivity | intros; reflexivity].
  - rewrite (get_tokens_rows _ _ _ Hs). simpl. eexists.
    split; [reflexivity |]. intros x Hx. congruence.
Qed.

(** X8: a call that follows a call that returned, while the stored
    [expires_at] is greater than the double [time.time() + 300], returns
    the same access token, posts nothing and only reads the clock. *)
Theorem next_call_served_from_cache self w v t q :
  fst (get_valid_access_token self w) = Return v ->
  let w1 := snd (get_valid_access_token self w) in
  fst (get_tokens self w1) = Return (Some t) ->
  float_value (deadline w1) = Some q ->
  (q < inject_Z (expires_at t))%Q ->
  get_valid_access_token self w1 = (Return v, tick w1).
Proof.
  intros Hret w1 Hget Hq Hfresh. subst w1.
  destruct (stored_rows self w) as [rows |] eqn:Hrows.
  - destruct (get_valid_access_token_after self w rows Hrows)
      as [(x & Hx & _) | (v' & r & rest & Hv & Hs & Hr)]; [congruence |].
    rewrite (get_tokens_rows _ _ _ Hs) in Hget. simpl in Hget.
    injection Hget as <-. simpl in Hfresh.
    rewrite (get_valid_access_token_rows _ _ _ Hs). simpl.
    apply (py_gt_true _ _ _ Hq) in Hfresh. rewrite Hfresh. congruence.
  - destruct (get_valid_access_token_no_rows self w Hrows) as (x & Heq & _).
    rewrite Heq in Hret. discriminate.
Qed.

Lemma refresh_and_save_accepted_Return self rt w rows body a r e v :
  stored_rows self w = Some rows ->
  endpoint w (environ w) (posted w) (refresh_request self rt) =
    Return (token_response body a r e) ->
  fst (refresh_and_save self rt w) = Return v ->
  exists ea, stored_rows self (snd (refresh_and_save self rt w)) =
               Some [saved_row a r ea].
Proof.
  intros Hrows Hep Hret.
  destruct (int64 (py_int (next_time w) + e)) eqn:Hfit.
  - eexists.
    exact (proj2 (refresh_and_save_accepted self rt w rows body a r e
                    Hrows Hep Hfit)).
  - rewrite (refresh_and_save_oversized self rt w rows body a r e Hrows Hep Hfit)
      in Hret.
    discriminate.
Qed.

(** X9: after a refresh that succeeded and was saved, a following call
    that has to refresh again uses the rotated refresh token of the
    response, never the one that was spent. *)
Theorem rotated_token_used_next self w rt body a r e v rt' :
  needs_refresh self w rt ->
  endpoint w (environ w) (posted w) (refresh_request self rt) =
    Return (token_response body a r e) ->
  fst (get_valid_access_token self w) = Return v ->
  let w1 := snd (get_valid_access_token self w) in
  needs_refresh self w1 rt' ->
  rt' = r /\
  posted (snd (get_valid_access_token self w1)) =
    (posted w ++ [refresh_request self rt; refresh_request self r])%list.
Proof.
  intros Hneed Hep Hret w1 Hnext. subst w1.
  assert (Hr : rt' = r).
  { apply needs_refresh_exchange in Hneed
      as (rows & w0 & Hrows & Hp & He & Hv & _ & _ & Heq).
    rewrite Heq in Hnext, Hret. rewrite <- Hp, <- He, <- Hv in Hep.
    destruct (refresh_and_save_accepted_Return self rt w0 rows body a r e v
                Hrows Hep Hret) as [ea Hs].
    destruct Hnext as [(Hget & _) | (t & q & Hget & _ & _ & ->)];
      rewrite (get_tokens_rows _ _ _ Hs) in Hget; simpl in Hget.
    - discriminate.
    - injection Hget as <-. reflexivity. }
  split; [exact Hr |]. subst rt'.
  rewrite (needs_refresh_posted _ _ _ Hnext).
  rewrite (needs_refresh_posted _ _ _ Hneed).
  rewrite <- app_assoc. reflexivity.
Qed.

(** X10: on a database that has no [tokens] table, loading, saving and
    [get_valid_access_token] all raise sqlite3's [OperationalError]; the
    call posts nothing and no table appears. *)
Theorem missing_table_raises_OperationalError self w a r e db :
  opened_database (db_path self) w = Some db ->
  db !! "tokens" = None ->
  let failure := PyExc "sqlite3.OperationalError" "no such table: tokens" in
  fst (get_tokens self w) = Raise failure /\
  fst (save_tokens self a r e w) = Raise failure /\
  fst (get_valid_access_token self w) = Raise failure /\
  posted (snd (get_valid_access_token self w)) = posted w /\
  stored_rows self (snd (get_valid_access_token self w)) = None.
Proof.
  intros Hdb Ht failure. subst failure.
  pose proof (get_tokens_no_table self w db Hdb Ht) as Hget.
  assert (Hrows : stored_rows self w = None).
  { unfold stored_rows. rewrite Hdb. exact Ht. }
  split; [exact Hget |]. split.
  - rewrite save_tokens_eq. cbv zeta. unfold opened_database in Hdb.
    destruct (private_name (db_path self)); [reflexivity |].
    destruct (files w !! db_path self) as [[db' | |] |]; try discriminate;
      [| reflexivity].
    injection Hdb as ->. rewrite Ht. reflexivity.
  - destruct (get_valid_access_token_no_rows self w Hrows) as (x & -> & Hx).
    destruct (get_tokens_no_rows self w Hrows) as (_ & _ & Hp & _ & Hs).
    rewrite Hget in Hx. injection Hx as <-.
    simpl. split; [reflexivity |]. split; assumption.
Qed.

(** X20: when the exchange succeeds and [now + expires_in] is beyond the
    signed 64-bit range, the call raises [OverflowError] at the INSERT
    and nothing is written: the refresh token was spent at the endpoint
    and the store still holds the old record. *)
Theorem oversized_expiry_raises_OverflowError self w rt body a r e now :
  needs_refresh self w rt ->
  endpoint w (environ w) (posted w) (refresh_request self rt) =
    Return (token_response body a r e) ->
  whole_seconds (save_clock self w) now ->
  (2 ^ 63 <= now + e)%Z ->
  fst (get_valid_access_token self w) =
    Raise (PyExc "OverflowError"
             "Python int too large to convert to SQLite INTEGER") /\
  posted (snd (get_valid_access_token self w)) =
    (posted w ++ [refresh_request self rt])%list /\
  files (snd (get_valid_access_token self w)) = files w.
Proof.
  intros Hneed Hep Hnow Hbig.
  apply needs_refresh_exchange in Hneed
    as (rows & w1 & Hrows & Hp & He & Hv & Hf & Ht & ->).
  rewrite <- Hp, <- He, <- Hv in Hep. rewrite <- Ht in Hnow.
  apply py_int_whole_seconds in Hnow. subst now. apply int64_false in Hbig.
  rewrite (refresh_and_save_oversized self rt w1 rows body a r e Hrows Hep Hbig).
  simpl. rewrite Hp, Hf. repeat split.
Qed.

(** ** The constructor *)

(** X11: constructing a manager on a path that names a file and where
    there is none returns a manager whose store exists and is empty: the
    table is there with no row, and loading returns [None]. *)
Theorem fresh_store_is_empty path w :
  private_name path = false ->
  files w !! path = None ->
  exists self,
    fst (__init__ path w) = Return self /\
    db_path self = path /\
    stored_rows self (snd (__init__ path w)) = Some [] /\
    fst (get_tokens self (snd (__init__ path w))) = Return None.
Proof.
  intros Hp Hf. rewrite init_eq. cbv zeta.
  set (self := {| db_path := path;
                  client_id := environ w !! "BLUEBEAM_CLIENT_ID";
                  client_secret := environ w !! "BLUEBEAM_CLIENT_SECRET" |}).
  rewrite init_db_eq. simpl db_path. rewrite Hp, Hf.
  exists self. split; [reflexivity |]. split; [reflexivity |].
  assert (Hs : stored_rows self
                 (with_files
                    (<[path := Database (<["tokens" := []]> ∅)]> (files w)) w) =
               Some []).
  { unfold stored_rows, opened_database. simpl. rewrite Hp. simpl.
    rewrite lookup_insert_eq. simpl. apply lookup_insert_eq. }
  split; [exact Hs |].
  simpl. rewrite (get_tokens_rows _ _ _ Hs). reflexivity.
Qed.

(** X12: constructing a manager on a database that already has the table
    changes nothing in the world, and the manager loads the record that
    was stored there: the tokens survive a restart of the process. *)
Theorem constructor_keeps_record path w db rows :
  opened_database path w = Some db ->
  db !! "tokens" = Some rows ->
  exists self,
    __init__ path w = (Return self, w) /\
    db_path self = path /\
    fst (get_tokens self w) = Return (first_tokens rows).
Proof.
  intros Hdb Ht. rewrite init_eq. cbv zeta. eexists.
  assert (Hs : stored_rows
                 {| db_path := path;
                    client_id := environ w !! "BLUEBEAM_CLIENT_ID";
                    client_secret := environ w !! "BLUEBEAM_CLIENT_SECRET" |} w =
               Some rows).
  { unfold stored_rows. simpl. rewrite Hdb. exact Ht. }
  rewrite (init_db_existing _ _ _ Hs).
  split; [reflexivity |]. split; [reflexivity |].
  rewrite (get_tokens_rows _ _ _ Hs). reflexivity.
Qed.

(** X13: whenever the constructor returns on a path that names a file,
    the manager it returns can load: [get_tokens] returns a record or
    [None] instead of raising. *)
Theorem constructed_manager_loads path w self :
  private_name path = false ->
  fst (__init__ path w) = Return self ->
  exists t, fst (get_tokens self (snd (__init__ path w))) = Return t.
Proof.
  intros Hp Hret.
  destruct (__init__ path w) as [res w1] eqn:Hinit. simpl in Hret. subst res.
  apply init_Return in Hinit as [Hself Hdb].
  assert (Hpath : private_name (db_path self) = false) by (subst self; exact Hp).
  destruct (init_db_makes_table self w Hpath) as [rows Hrows];
    [rewrite Hdb; reflexivity |].
  rewrite Hdb in Hrows. simpl in *.
  exists (first_tokens rows). rewrite (get_tokens_rows _ _ _ Hrows). reflexivity.
Qed.

(** X17: on a path that cannot be opened as a file the constructor
    raises sqlite3's [OperationalError] and changes nothing. *)
Theorem constructor_raises_on_unopenable_path path w :
  private_name path = false ->
  files w !! path = Some Unopenable ->
  __init__ path w =
    (Raise (PyExc "sqlite3.OperationalError" "unable to open database file"), w).
Proof.
  intros Hp Hf. rewrite init_eq. cbv zeta. rewrite init_db_eq. simpl db_path.
  rewrite Hp, Hf. reflexivity.
Qed.

(** X18: on a file that is no SQLite database the constructor raises
    sqlite3's [DatabaseError], at the CREATE TABLE, and changes
    nothing. *)
Theorem constructor_raises_on_other_file path w :
  private_name path = false ->
  files w !! path = Some NotADatabase ->
  __init__ path w =
    (Raise (PyExc "sqlite3.DatabaseError" "file is not a database"), w).
Proof.
  intros Hp Hf. rewrite init_eq. cbv zeta. rewrite init_db_eq. simpl db_path.
  rewrite Hp, Hf. reflexivity.
Qed.

(** X19: with [:memory:] or the empty string for a path, the constructor
    returns and creates its table in a database that is gone with the
    connection: every later call raises [OperationalError] for the
    missing table, posts nothing and leaves the world as it was. *)
Theorem private_database_holds_nothing path w :
  private_name path = true ->
  exists self,
    __init__ path w = (Return self, w) /\
    db_path self = path /\
    forall w',
      get_valid_access_token self w' =
        (Raise (PyExc "sqlite3.OperationalError" "no such table: tokens"), w').
Proof.
  intros Hp. rewrite init_eq. cbv zeta. rewrite init_db_eq. simpl db_path.
  rewrite Hp. eexists. split; [reflexivity |]. split; [reflexivity |].
  intros w'.
  unfold get_valid_access_token, bind at 1.
  rewrite get_tokens_eq. simpl db_path. rewrite Hp. reflexivity.
Qed.

(** ** Saving *)


(** ** The environment *)

Lemma save_tokens_environ self a r e w env :
  save_tokens self a r e (with_environ env w) =
    (fst (save_tokens self a r e w),
     with_environ env (snd (save_tokens self a r e w))).
Proof.
  rewrite !save_tokens_eq. cbv zeta. simpl files.
  change (next_time (with_environ env w)) with (next_time w).
  destruct (private_name (db_path self)); [reflexivity |].
  destruct (files w !! db_path self) as [[db | |] |]; try reflexivity.
  destruct (db !! "tokens"); [| reflexivity].
  destruct (int64 _); reflexivity.
Qed.

Lemma refresh_and_save_environ self rt w env :
  endpoint w env (posted w) (refresh_request self rt) =
    endpoint w (environ w) (posted w) (refresh_request self rt) ->
  refresh_and_save self rt (with_environ env w) =
    (fst (refresh_and_save self rt w),
     with_environ env (snd (refresh_and_save self rt w))).
Proof.
  intros Hep. rewrite !refresh_and_save_eq. simpl. rewrite Hep.
  destruct (endpoint w (environ w) (posted w) _) as [resp | x]; [| reflexivity].
  destruct (status_code resp =? 200)%Z; [| reflexivity].
  destruct (json resp) as [j | x]; [| reflexivity].
  destruct (json_access_token j) as [a |]; [| reflexivity].
  destruct (json_refresh_token j) as [r |]; [| reflexivity].
  destruct (json_expires_in j) as [e |]; [| reflexivity].
  set (w1 := with_posted _ w).
  change (with_posted _ (with_environ env w)) with (with_environ env w1).
  rewrite (save_tokens_environ self a r e w1 env).
  destruct (save_tokens self a r e w1) as [[u | x] w2]; reflexivity.
Qed.

(** X15: once a record is stored, the code consults the environment only
    through [requests.post]: under any other set of environment variables
    for which the transport answers the same, the call has the same
    outcome and the same effects; the bootstrap token is not read. *)
Theorem stored_record_shadows_environment self w t env :
  fst (get_tokens self w) = Return (Some t) ->
  (forall req, endpoint w env (posted w) req =
               endpoint w (environ w) (posted w) req) ->
  get_valid_access_token self (with_environ env w) =
    (fst (get_valid_access_token self w),
     with_environ env (snd (get_valid_access_token self w))).
Proof.
  intros Hget Hep. apply get_tokens_Return in Hget as (rows & Hrows & Hfirst).
  assert (Hrows' : stored_rows self (with_environ env w) = Some rows) by exact Hrows.
  rewrite (get_valid_access_token_rows self (with_environ env w) rows Hrows').
  rewrite (get_valid_access_token_rows self w rows Hrows).
  rewrite Hfirst.
  change (deadline (with_environ env w)) with (deadline w).
  destruct (py_gt (expires_at t) (deadline w)); [reflexivity |].
  exact (refresh_and_save_environ self (refresh_token t) (tick w) env (Hep _)).
Qed.

(** X16: the requests a call posts, the credentials in them included, do
    not depend on the environment beyond [BLUEBEAM_REFRESH_TOKEN]: the
    client credentials are those the constructor captured. *)
Theorem credentials_fixed_at_construction self w env :
  env !! "BLUEBEAM_REFRESH_TOKEN" = environ w !! "BLUEBEAM_REFRESH_TOKEN" ->
  posted (snd (get_valid_access_token self (with_environ env w))) =
    posted (snd (get_valid_access_token self w)).
Proof.
  intros Henv.
  destruct (stored_rows self w) as [rows |] eqn:Hrows.
  - assert (Hrows' : stored_rows self (with_environ env w) = Some rows)
      by exact Hrows.
    rewrite (get_valid_access_token_rows self (with_environ env w) rows Hrows').
    rewrite (get_valid_access_token_rows self w rows Hrows).
    change (deadline (with_environ env w)) with (deadline w).
    change (environ (with_environ env w)) with env. rewrite Henv.
    destruct (first_tokens rows) as [t |].
    + destruct (py_gt (expires_at t) (deadline w)); [reflexivity |].
      rewrite (refresh_and_save_posted self _ (tick (with_environ env w))).
      rewrite (refresh_and_save_posted self _ (tick w)). reflexivity.
    + destruct (environ w !! "BLUEBEAM_REFRESH_TOKEN") as [[| c rt] |];
        [reflexivity | | reflexivity].
      rewrite !refresh_and_save_posted. reflexivity.
  - assert (Hrows' : stored_rows self (with_environ env w) = None) by exact Hrows.
    destruct (get_valid_access_token_no_rows self w Hrows) as (x & -> & _).
    destruct (get_valid_access_token_no_rows self _ Hrows') as (x' & -> & _).
    destruct (get_tokens_no_rows self w Hrows) as (_ & _ & Hp & _).
    destruct (get_tokens_no_rows self _ Hrows') as (_ & _ & Hp' & _).
    simpl. rewrite Hp, Hp'. reflexivity.
Qed.

(** ** The further properties at sample worlds *)

Lemma old_token_needs_refresh ep :
  needs_refresh sample_manager
    (sample_world sample_environ [old_row] (seconds 700) ep) "rt0".
Proof.
  right. exists old_tokens. eexists.
  split; [vm_compute; reflexivity |].
  split; [vm_compute; reflexivity |].
  split; [vm_compute; discriminate | reflexivity].
Defined.

Lemma failed_call_writes_nothing_witness :
  stored_rows sample_manager world_refused = Some [old_row] /\
  fst (get_valid_access_token sample_manager world_refused) =
    Raise (Exception "Failed to refresh token: invalid_grant") /\
  files (snd (get_valid_access_token sample_manager world_refused)) =
    files world_refused.
Proof.
  assert (h1 : stored_rows sample_manager world_refused = Some [old_row])
    by (vm_compute; reflexivity).
  assert (h2 : fst (get_valid_access_token sample_manager world_refused) =
               Raise (Exception "Failed to refresh token: invalid_grant"))
    by (vm_compute; reflexivity).
  split; [exact h1 |]. split; [exact h2 |].
  exact (failed_call_writes_nothing sample_manager world_refused _ _ h1 h2).
Defined.

Lemma transport_failure_propagates_witness :
  needs_refresh sample_manager world_unreachable "rt0" /\
  endpoint world_unreachable (environ world_unreachable) (posted world_unreachable)
    (refresh_request sample_manager "rt0") = Raise connection_refused /\
  fst (get_valid_access_token sample_manager world_unreachable) =
    Raise connection_refused /\
  posted (snd (get_valid_access_token sample_manager world_unreachable)) =
    (posted world_unreachable ++ [refresh_request sample_manager "rt0"])%list /\
  files (snd (get_valid_access_token sample_manager world_unreachable)) =
    files world_unreachable.
Proof.
  assert (h1 : needs_refresh sample_manager world_unreachable "rt0")
    by exact (old_token_needs_refresh unreachable).
  assert (h2 : endpoint world_unreachable (environ world_unreachable)
                 (posted world_unreachable)
                 (refresh_request sample_manager "rt0") = Raise connection_refused)
    by reflexivity.
  split; [exact h1 |]. split; [exact h2 |].
  exact (transport_failure_propagates sample_manager world_unreachable "rt0"
           connection_refused h1 h2).
Defined.

Lemma unparsable_answer_propagates_witness :
  needs_refresh sample_manager world_garbled "rt0" /\
  fst (get_valid_access_token sample_manager world_garbled) = Raise not_json /\
  files (snd (get_valid_access_token sample_manager world_garbled)) =
    files world_garbled.
Proof.
  assert (h1 : needs_refresh sample_manager world_garbled "rt0")
    by exact (old_token_needs_refresh garbled).
  split; [exact h1 |].
  exact (unparsable_answer_propagates sample_manager world_garbled "rt0"
           garbled_page not_json h1 eq_refl eq_refl eq_refl).
Defined.

Lemma missing_member_raises_KeyError_witness :
  needs_refresh sample_manager world_unrotated "rt0" /\
  first_missing_member unrotated_json = Some "refresh_token" /\
  fst (get_valid_access_token sample_manager world_unrotated) =
    Raise (PyExc "KeyError" "'refresh_token'") /\
  files (snd (get_valid_access_token sample_manager world_unrotated)) =
    files world_unrotated.
Proof.
  assert (h1 : needs_refresh sample_manager world_unrotated "rt0")
    by exact (old_token_needs_refresh unrotated).
  assert (h2 : first_missing_member unrotated_json = Some "refresh_token")
    by reflexivity.
  split; [exact h1 |]. split; [exact h2 |].
  exact (missing_member_raises_KeyError sample_manager world_unrotated "rt0"
           unrotated_answer unrotated_json "refresh_token"
           h1 eq_refl eq_refl eq_refl h2).
Defined.

Lemma other_files_untouched_witness :
  "other.db" <> db_path sample_manager /\
  files (snd (get_valid_access_token sample_manager world_expiring)) !! "other.db" =
    files world_expiring !! "other.db" /\
  environ (snd (get_valid_access_token sample_manager world_expiring)) =
    environ world_expiring.
Proof.
  assert (h1 : "other.db" <> db_path sample_manager) by (simpl; discriminate).
  split; [exact h1 |].
  exact (other_files_untouched sample_manager world_expiring "other.db" h1).
Defined.

Lemma record_never_removed_witness :
  fst (get_tokens sample_manager world_refused) = Return (Some old_tokens) /\
  exists t',
    fst (get_tokens sample_manager
           (snd (get_valid_access_token sample_manager world_refused))) =
      Return (Some t') /\
    forall x, fst (get_valid_access_token sample_manager world_refused) = Raise x ->
              t' = old_tokens.
Proof.
  assert (h1 : fst (get_tokens sample_manager world_refused) =
               Return (Some old_tokens)) by (vm_compute; reflexivity).
  split; [exact h1 |].
  exact (record_never_removed sample_manager world_refused old_tokens h1).
Defined.

Lemma next_call_served_from_cache_witness :
  let w1 := snd (get_valid_access_token sample_manager world_expiring) in
  let t := {| access_token := "at1"; refresh_token := "rt1"; expires_at := 4302 |} in
  exists q,
    fst (get_valid_access_token sample_manager world_expiring) = Return "at1" /\
    fst (get_tokens sample_manager w1) = Return (Some t) /\
    float_value (deadline w1) = Some q /\
    (q == 1004)%Q /\
    (q < inject_Z 4302)%Q /\
    get_valid_access_token sample_manager w1 = (Return "at1", tick w1).
Proof.
  cbv zeta.
  assert (h1 : fst (get_valid_access_token sample_manager world_expiring) =
               Return "at1") by (vm_compute; reflexivity).
  assert (h2 : fst (get_tokens sample_manager
                      (snd (get_valid_access_token sample_manager world_expiring))) =
               Return (Some {| access_token := "at1"; refresh_token := "rt1";
                               expires_at := 4302 |}))
    by (vm_compute; reflexivity).
  assert (h3 : float_value
                 (deadline (snd (get_valid_access_token sample_manager
                                   world_expiring))) =
               Some (8831277394296832 # 8796093022208))
    by (vm_compute; reflexivity).
  assert (h4 : (8831277394296832 # 8796093022208 < inject_Z 4302)%Q)
    by (vm_compute; reflexivity).
  eexists. split; [exact h1 |]. split; [exact h2 |]. split; [exact h3 |].
  split; [vm_compute; reflexivity |]. split; [exact h4 |].
  exact (next_call_served_from_cache sample_manager world_expiring "at1"
           {| access_token := "at1"; refresh_token := "rt1"; expires_at := 4302 |}
           _ h1 h2 h3 h4).
Defined.

Lemma rotated_token_used_next_witness :
  let w1 := snd (get_valid_access_token sample_manager world_short_lived) in
  needs_refresh sample_manager world_short_lived "rt0" /\
  fst (get_valid_access_token sample_manager world_short_lived) = Return "at1" /\
  needs_refresh sample_manager w1 "rt1" /\
  posted (snd (get_valid_access_token sample_manager w1)) =
    [refresh_request sample_manager "rt0"; refresh_request sample_manager "rt1"].
Proof.
  cbv zeta.
  assert (h1 : needs_refresh sample_manager world_short_lived "rt0")
    by exact (old_token_needs_refresh (granting 60)).
  assert (h2 : fst (get_valid_access_token sample_manager world_short_lived) =
               Return "at1") by (vm_compute; reflexivity).
  assert (h3 : needs_refresh sample_manager
                 (snd (get_valid_access_token sample_manager world_short_lived))
                 "rt1").
  { right.
    exists {| access_token := "at1"; refresh_token := "rt1"; expires_at := 762 |}.
    eexists.
    split; [vm_compute; reflexivity |].
    split; [vm_compute; reflexivity |].
    split; [vm_compute; discriminate | reflexivity]. }
  split; [exact h1 |]. split; [exact h2 |]. split; [exact h3 |].
  exact (proj2 (rotated_token_used_next sample_manager world_short_lived "rt0"
                  sample_body "at1" "rt1" 60 "at1" "rt1" h1 eq_refl h2 h3)).
Defined.

Lemma missing_table_raises_OperationalError_witness :
  opened_database (db_path sample_manager) world_no_table = Some ∅ /\
  fst (get_valid_access_token sample_manager world_no_table) =
    Raise (PyExc "sqlite3.OperationalError" "no such table: tokens") /\
  posted (snd (get_valid_access_token sample_manager world_no_table)) = [].
Proof.
  assert (h1 : opened_database (db_path sample_manager) world_no_table = Some ∅)
    by (vm_compute; reflexivity).
  assert (h2 : (∅ : gmap string (list row)) !! "tokens" = None)
    by (vm_compute; reflexivity).
  split; [exact h1 |].
  destruct (missing_table_raises_OperationalError sample_manager world_no_table
              "at1" "rt1" 3600 ∅ h1 h2) as (_ & _ & Hcall & Hposted & _).
  split; [exact Hcall | exact Hposted].
Defined.

Lemma oversized_expiry_raises_OverflowError_witness :
  needs_refresh sample_manager world_endless "rt0" /\
  whole_seconds (save_clock sample_manager world_endless) 702 /\
  fst (get_valid_access_token sample_manager world_endless) =
    Raise (PyExc "OverflowError"
             "Python int too large to convert to SQLite INTEGER") /\
  posted (snd (get_valid_access_token sample_manager world_endless)) =
    (posted world_endless ++ [refresh_request sample_manager "rt0"])%list /\
  files (snd (get_valid_access_token sample_manager world_endless)) =
    files world_endless.
Proof.
  assert (h1 : needs_refresh sample_manager world_endless "rt0")
    by exact (old_token_needs_refresh (granting (2 ^ 63 - 1))).
  assert (h2 : whole_seconds (save_clock sample_manager world_endless) 702).
  { split; [lia |].
    split; [vm_compute; discriminate | vm_compute; reflexivity]. }
  assert (h3 : (2 ^ 63 <= 702 + (2 ^ 63 - 1))%Z) by lia.
  split; [exact h1 |]. split; [exact h2 |].
  exact (oversized_expiry_raises_OverflowError sample_manager world_endless "rt0"
           sample_body "at1" "rt1" (2 ^ 63 - 1)%Z 702%Z h1 eq_refl h2 h3).
Defined.

Lemma fresh_store_is_empty_witness :
  private_name "tokens.db" = false /\
  files world_no_file !! "tokens.db" = None /\
  exists self,
    fst (__init__ "tokens.db" world_no_file) = Return self /\
    db_path self = "tokens.db" /\
    stored_rows self (snd (__init__ "tokens.db" world_no_file)) = Some [] /\
    fst (get_tokens self (snd (__init__ "tokens.db" world_no_file))) = Return None.
Proof.
  assert (h0 : private_name "tokens.db" = false) by reflexivity.
  assert (h1 : files world_no_file !! "tokens.db" = None)
    by (vm_compute; reflexivity).
  split; [exact h0 |]. split; [exact h1 |].
  exact (fresh_store_is_empty "tokens.db" world_no_file h0 h1).
Defined.

Lemma constructor_keeps_record_witness :
  opened_database "tokens.db" world_fresh = Some {[ "tokens" := [old_row] ]} /\
  exists self,
    __init__ "tokens.db" world_fresh = (Return self, world_fresh) /\
    db_path self = "tokens.db" /\
    fst (get_tokens self world_fresh) = Return (Some old_tokens).
Proof.
  assert (h1 : opened_database "tokens.db" world_fresh =
               Some {[ "tokens" := [old_row] ]}) by (vm_compute; reflexivity).
  assert (h2 : ({[ "tokens" := [old_row] ]} : gmap string (list row)) !! "tokens" =
               Some [old_row]) by (vm_compute; reflexivity).
  split; [exact h1 |].
  exact (constructor_keeps_record "tokens.db" world_fresh _ _ h1 h2).
Defined.

Lemma constructed_manager_loads_witness :
  private_name "tokens.db" = false /\
  fst (__init__ "tokens.db" world_no_table) = Return sample_manager /\
  exists t,
    fst (get_tokens sample_manager (snd (__init__ "tokens.db" world_no_table))) =
      Return t.
Proof.
  assert (h0 : private_name "tokens.db" = false) by reflexivity.
  assert (h1 : fst (__init__ "tokens.db" world_no_table) = Return sample_manager)
    by (vm_compute; reflexivity).
  split; [exact h0 |]. split; [exact h1 |].
  exact (constructed_manager_loads "tokens.db" world_no_table sample_manager h0 h1).
Defined.

Lemma constructor_raises_on_unopenable_path_witness :
  private_name "tokens.db" = false /\
  files world_bad_files !! "tokens.db" = Some Unopenable /\
  __init__ "tokens.db" world_bad_files =
    (Raise (PyExc "sqlite3.OperationalError" "unable to open database file"),
     world_bad_files).
Proof.
  assert (h0 : private_name "tokens.db" = false) by reflexivity.
  assert (h1 : files world_bad_files !! "tokens.db" = Some Unopenable)
    by (vm_compute; reflexivity).
  split; [exact h0 |]. split; [exact h1 |].
  exact (constructor_raises_on_unopenable_path "tokens.db" world_bad_files h0 h1).
Defined.

Lemma constructor_raises_on_other_file_witness :
  private_name "notes.db" = false /\
  files world_bad_files !! "notes.db" = Some NotADatabase /\
  __init__ "notes.db" world_bad_files =
    (Raise (PyExc "sqlite3.DatabaseError" "file is not a database"),
     world_bad_files).
Proof.
  assert (h0 : private_name "notes.db" = false) by reflexivity.
  assert (h1 : files world_bad_files !! "notes.db" = Some NotADatabase)
    by (vm_compute; reflexivity).
  split; [exact h0 |]. split; [exact h1 |].
  exact (constructor_raises_on_other_file "notes.db" world_bad_files h0 h1).
Defined.

Lemma private_database_holds_nothing_witness :
  private_name ":memory:" = true /\
  exists self,
    __init__ ":memory:" world_fresh = (Return self, world_fresh) /\
    db_path self = ":memory:" /\
    forall w',
      get_valid_access_token self w' =
        (Raise (PyExc "sqlite3.OperationalError" "no such table: tokens"), w').
Proof.
  assert (h0 : private_name ":memory:" = true) by reflexivity.
  split; [exact h0 |].
  exact (private_database_holds_nothing ":memory:" world_fresh h0).
Defined.


Lemma stored_record_shadows_environment_witness :
  fst (get_tokens sample_manager world_expiring) = Return (Some old_tokens) /\
  (forall req, endpoint world_expiring ∅ (posted world_expiring) req =
               endpoint world_expiring (environ world_expiring)
                 (posted world_expiring) req) /\
  fst (get_valid_access_token sample_manager (with_environ ∅ world_expiring)) =
    Return "at1".
Proof.
  assert (h1 : fst (get_tokens sample_manager world_expiring) =
               Return (Some old_tokens)) by (vm_compute; reflexivity).
  assert (h2 : forall req, endpoint world_expiring ∅ (posted world_expiring) req =
                           endpoint world_expiring (environ world_expiring)
                             (posted world_expiring) req)
    by (intros req; reflexivity).
  split; [exact h1 |]. split; [exact h2 |].
  exact (f_equal fst (stored_record_shadows_environment sample_manager
                        world_expiring old_tokens ∅ h1 h2)).
Defined.

(** Behind a proxy the outcome does depend on the environment. *)
Example environment_reaches_the_transport :
  fst (get_valid_access_token sample_manager world_behind_proxy) =
    Raise connection_refused /\
  fst (get_valid_access_token sample_manager
         (with_environ (<["HTTPS_PROXY" := "http://proxy:3128"]> sample_environ)
            world_behind_proxy)) = Return "at1".
Proof. split; vm_compute; reflexivity. Qed.

Lemma credentials_fixed_at_construction_witness :
  let env := <["BLUEBEAM_CLIENT_ID" := "other"]> sample_environ in
  env !! "BLUEBEAM_REFRESH_TOKEN" = environ world_empty !! "BLUEBEAM_REFRESH_TOKEN" /\
  posted (snd (get_valid_access_token sample_manager
                 (with_environ env world_empty))) =
    [refresh_request sample_manager "rt0"].
Proof.
  cbv zeta.
  assert (h1 : <["BLUEBEAM_CLIENT_ID" := "other"]> sample_environ
                 !! "BLUEBEAM_REFRESH_TOKEN" =
               environ world_empty !! "BLUEBEAM_REFRESH_TOKEN")
    by (vm_compute; reflexivity).
  split; [exact h1 |].
  exact (credentials_fixed_at_construction sample_manager world_empty
           (<["BLUEBEAM_CLIENT_ID" := "other"]> sample_environ) h1).
Defined.

(** With the exact sum in place of the double, the premise of C2 can hold
    while the call serves the cache: at 2^53 - 299 seconds the exact sum
    is 2^53 + 1, the expiry of the stored token, and the double is
    2^53. *)
Example exact_sum_is_not_the_test :
  let t := {| access_token := "at0"; refresh_token := "rt0";
              expires_at := 2 ^ 53 + 1 |} in
  let w := sample_world sample_environ [saved_row "at0" "rt0" (2 ^ 53 + 1)]
             (seconds (2 ^ 53 - 299)) accepting in
  fst (get_tokens sample_manager w) = Return (Some t) /\
  (inject_Z (expires_at t) <= timestamp_value (next_time w) + 300)%Q /\
  fst (get_valid_access_token sample_manager w) = Return "at0" /\
  posted (snd (get_valid_access_token sample_manager w)) = [].
Proof.
  cbv zeta. split; [vm_compute; reflexivity |].
  split; [vm_compute; discriminate |].
  split; vm_compute; reflexivity.
Qed.
